(** * Resource App frontend: a shallow embedding and its specification

    The development follows the three JavaScript sources of the frontend:

    - [src/frontend/src/api.js]: the helpers [postJSON], [getJSON] and
      [postFile] built on [fetch];
    - [src/frontend/src/App.js]: the React component [App], its state and
      its event handlers;
    - [src/frontend/script.js]: the legacy vanilla uploader [uploadPDF].

    JavaScript values are modelled by the type [json] (what [res.json()]
    can produce) with [option json] standing for "a JSON value or
    [undefined]".  Objects are finite maps from property names to values.
    An [async] function is a computation that reads the outside world
    (the backend's answers and the clock), logs the requests it hands to
    [fetch], updates the component state through the setters and either
    fulfils or rejects. *)

From stdpp Require Import gmap strings list fin_maps pretty.
From Stdlib Require Import ZArith.

Set Warnings "-register-all".
Open Scope Z_scope.

(* ===================================================================== *)
(** ** JavaScript values *)
(* ===================================================================== *)

Module Js.

(** The values [JSON.parse] produces.  Numbers are the integers: no
    arithmetic is performed on them anywhere in the sources, they are
    only compared with [===] and printed inside template literals. *)
Inductive json :=
| JNull
| JBool (b : bool)
| JNum (n : Z)
| JStr (s : string)
| JArr (l : list json)
| JObj (m : gmap string json).

(** The primitive values, the argument type of [refreshSummary]: on
    primitives [===] is equality of values. *)
Inductive prim :=
| PUndefined
| PNull
| PBool (b : bool)
| PNum (n : Z)
| PStr (s : string).

(** Reasons for which a promise rejects. *)
Inductive error :=
| NetworkError      (* fetch rejects *)
| SyntaxError       (* res.json() on a body that is not JSON *)
| TypeError.        (* property of null, spread of a non-iterable, ... *)

Inductive outcome (A : Type) :=
| Fulfilled (a : A)
| Rejected (e : error).
Arguments Fulfilled {A} a.
Arguments Rejected {A} e.

(** [`${v}`] for a primitive [v]; an integer prints in decimal, as
    JavaScript prints it below 10^21 (from there on JavaScript prints
    the exponent form, [1e+21], which is not modelled). *)
Definition to_string (v : prim) : string :=
  match v with
  | PUndefined => "undefined"
  | PNull => "null"
  | PBool true => "true"
  | PBool false => "false"
  | PNum n => pretty n
  | PStr s => s
  end.

(** [`${v}`] for a value that is a string or [undefined], such as an
    entry of [process.env]. *)
Definition template (v : option string) : string :=
  match v with
  | Some s => s
  | None => "undefined"
  end.

(** [!s] for a string [s]: only the empty string is falsy. *)
Definition falsy_string (s : string) : bool :=
  match s with
  | EmptyString => true
  | String _ _ => false
  end.

(** The characters of a string, each as a one-character string. *)
Fixpoint chars (s : string) : list json :=
  match s with
  | EmptyString => []
  | String c s' => JStr (String c EmptyString) :: chars s'
  end.

(** The properties with the keys "0", "1", ... of an array-like. *)
Definition indexed (l : list json) : gmap string json :=
  list_to_map (imap (λ i v, (pretty i, v)) l).

(** The own enumerable properties that [{...v}] copies. *)
Definition own_props (v : json) : gmap string json :=
  match v with
  | JObj m => m
  | JArr l => indexed l
  | JStr s => indexed (chars s)
  | JNull | JBool _ | JNum _ => ∅
  end.

(** [{...s, ...r}]: the properties of [r] override those of [s]. *)
Definition spread2 (s r : json) : json :=
  JObj (own_props r ∪ own_props s).

(** The elements that [[...v]] iterates over; [null], booleans, numbers
    and plain objects are not iterable. *)
Definition iterate (v : json) : outcome (list json) :=
  match v with
  | JArr l => Fulfilled l
  | JStr s => Fulfilled (chars s)
  | JNull | JBool _ | JNum _ | JObj _ => Rejected TypeError
  end.

(** [v.k] for a property name [k] that is neither an array index,
    ["length"] nor a member of a prototype (the sources read ["id"],
    ["response"] and ["summary"] only).  [None] inside [Fulfilled] is
    [undefined]; reading a property of [null] throws. *)
Definition get_prop (v : json) (k : string) : outcome (option json) :=
  match v with
  | JNull => Rejected TypeError
  | JObj m => Fulfilled (m !! k)
  | JArr _ | JStr _ | JBool _ | JNum _ => Fulfilled None
  end.

(** [v === p] for a primitive [p]; an object or an array is never
    strictly equal to a primitive. *)
Definition strict_eq (v : option json) (p : prim) : bool :=
  match v, p with
  | None, PUndefined => true
  | Some JNull, PNull => true
  | Some (JBool a), PBool b => bool_decide (a = b)
  | Some (JNum a), PNum b => bool_decide (a = b)
  | Some (JStr a), PStr b => bool_decide (a = b)
  | _, _ => false
  end.

End Js.
Export Js.

(* ===================================================================== *)
(** ** The network and the [async] computations *)
(* ===================================================================== *)

Module Net.

(** A [File] picked in an [<input type="file">]. *)
Record File := mkFile { file_name : string; file_content : string }.

(** An entry value of a [FormData]. *)
Inductive form_value :=
| FormFile (f : File)
| FormString (s : string).

(** The [body] option of [fetch]: [JSON.stringify(data)], kept as the
    value it serialises, or a [FormData]. *)
Inductive body :=
| NoBody
| BodyJSON (data : json)
| BodyForm (fd : list (string * form_value)).

(** The arguments of one call of [fetch]: the resource and the [init]
    object.  [headers] is the object literal given as [headers], in the
    order it is written; a value is a string or [undefined]. *)
Record request := mkRequest {
  url : string;
  method : string;
  headers : list (string * option string);
  req_body : body
}.

(** What [fetch] resolves to: the status and the body as [res.json()]
    sees it ([None] when the body is not JSON). *)
Record response := mkResponse {
  status : Z;
  parsed : option json
}.

(** The outside world: the backend's answer to each request ([None] when
    [fetch] itself rejects) and the clock read by [new Date()]. *)
Record world := mkWorld {
  answer : request → option response;
  now_iso : string
}.

(** An asynchronous computation over a state [S]: it logs the requests
    it sends, transforms the state and fulfils or rejects. *)
Definition async (S A : Type) : Type :=
  world → S → list request * S * outcome A.

Definition ret {S A} (a : A) : async S A :=
  λ _ st, ([], st, Fulfilled a).

Definition throw {S A} (e : error) : async S A :=
  λ _ st, ([], st, Rejected e).

Definition bind {S A B} (c : async S A) (k : A → async S B) : async S B :=
  λ w st,
    match c w st with
    | (log, st1, Fulfilled a) =>
        match k a w st1 with
        | (log', st2, r) => (log ++ log', st2, r)
        end
    | (log, st1, Rejected e) => (log, st1, Rejected e)
    end.

(** [try { c } catch (err) { }] where the handler only logs. *)
Definition try_catch {S} (c : async S ()) : async S () :=
  λ w st,
    match c w st with
    | (log, st1, _) => (log, st1, Fulfilled ())
    end.

(** A synchronous computation that may throw. *)
Definition lift {S A} (o : outcome A) : async S A :=
  λ _ st, ([], st, o).

(** The current state. *)
Definition get {S} : async S S :=
  λ _ st, ([], st, Fulfilled st).

(** A state update through a setter. *)
Definition modify {S} (f : S → S) : async S () :=
  λ _ st, ([], f st, Fulfilled ()).

(** [await fetch(url, init)]. *)
Definition fetch {S} (r : request) : async S response :=
  λ w st,
    match answer w r with
    | Some res => ([r], st, Fulfilled res)
    | None => ([r], st, Rejected NetworkError)
    end.

(** [res.json()]. *)
Definition res_json {S} (res : response) : async S json :=
  match parsed res with
  | Some j => ret j
  | None => throw SyntaxError
  end.

(** [new Date().toISOString()]. *)
Definition date_now {S} : async S string :=
  λ w st, ([], st, Fulfilled (now_iso w)).

Definition requests {S A} (r : list request * S * outcome A) : list request :=
  r.1.1.
Definition final {S A} (r : list request * S * outcome A) : S :=
  r.1.2.
Definition result {S A} (r : list request * S * outcome A) : outcome A :=
  r.2.

End Net.
Export Net.

Notation "'let*' x ':=' c 'in' k" := (bind c (λ x, k))
  (at level 10, x name, c at level 100, k at level 200).
Notation "c ';;' k" := (bind c (λ _, k))
  (at level 100, k at level 200, right associativity).

(* ===================================================================== *)
(** ** [src/frontend/src/api.js] *)
(* ===================================================================== *)

(** The two entries of [process.env] the module reads when it is
    loaded; an entry that is not set is [undefined]. *)
Record Env := mkEnv {
  API_BASE_URL : option string;
  API_KEY : option string
}.

Module Api.
Section Helpers.
Context {S : Type} (env : Env).

Definition defaultHeaders : list (string * option string) :=
  [ ("X-API-Key", API_KEY env);
    ("Content-Type", Some "application/json") ].

Definition postJSON (endpoint : string) (data : json) : async S json :=
  let* res := fetch {| url := template (API_BASE_URL env) +:+ endpoint;
                       method := "POST";
                       headers := defaultHeaders;
                       req_body := BodyJSON data |} in
  res_json res.

Definition getJSON (endpoint : string) : async S json :=
  let* res := fetch {| url := template (API_BASE_URL env) +:+ endpoint;
                       method := "GET";
                       headers := [ ("X-API-Key", API_KEY env) ];
                       req_body := NoBody |} in
  res_json res.

Definition postFile (endpoint : string) (file : File) : async S json :=
  let formData := [ ("file", FormFile file) ] in
  let* res := fetch {| url := template (API_BASE_URL env) +:+ endpoint;
                       method := "POST";
                       headers := [ ("X-API-Key", API_KEY env) ];
                       req_body := BodyForm formData |} in
  res_json res.

End Helpers.
End Api.

(* ===================================================================== *)
(** ** [src/frontend/src/App.js] *)
(* ===================================================================== *)

Module App.
Import Api.

(** [selectedFile]: [null] initially and after an upload, or
    [e.target.files[0]], which is [undefined] when the dialog was
    cancelled. *)
Inductive selection :=
| NullFile
| UndefinedFile
| Selected (f : File).

(** The nine [useState] cells of the component.  [notes], [schedules]
    and [summaries] hold whatever the backend answered; [copilotResponse]
    holds [result.response], which may be [undefined]. *)
Record AppState := mkState {
  activeTab : string;
  notes : json;
  noteTitle : string;
  noteContent : string;
  schedules : json;
  summaries : json;
  selectedFile : selection;
  copilotResponse : option json;
  online : bool
}.

(** The state of the first render, [useState]'s arguments. *)
Definition initial (navigator_onLine : bool) : AppState :=
  {| activeTab := "pdf"; notes := JArr []; noteTitle := "";
     noteContent := ""; schedules := JArr []; summaries := JArr [];
     selectedFile := NullFile; copilotResponse := Some (JStr "");
     online := navigator_onLine |}.

(** The state after a setter has replaced one cell. *)
Definition with_Notes (v : json) (st : AppState) : AppState :=
  {| activeTab := activeTab st; notes := v;
     noteTitle := noteTitle st; noteContent := noteContent st;
     schedules := schedules st; summaries := summaries st;
     selectedFile := selectedFile st; copilotResponse := copilotResponse st;
     online := online st |}.

Definition with_NoteTitle (v : string) (st : AppState) : AppState :=
  {| activeTab := activeTab st; notes := notes st;
     noteTitle := v; noteContent := noteContent st;
     schedules := schedules st; summaries := summaries st;
     selectedFile := selectedFile st; copilotResponse := copilotResponse st;
     online := online st |}.

Definition with_NoteContent (v : string) (st : AppState) : AppState :=
  {| activeTab := activeTab st; notes := notes st;
     noteTitle := noteTitle st; noteContent := v;
     schedules := schedules st; summaries := summaries st;
     selectedFile := selectedFile st; copilotResponse := copilotResponse st;
     online := online st |}.

Definition with_Schedules (v : json) (st : AppState) : AppState :=
  {| activeTab := activeTab st; notes := notes st;
     noteTitle := noteTitle st; noteContent := noteContent st;
     schedules := v; summaries := summaries st;
     selectedFile := selectedFile st; copilotResponse := copilotResponse st;
     online := online st |}.

Definition with_Summaries (v : json) (st : AppState) : AppState :=
  {| activeTab := activeTab st; notes := notes st;
     noteTitle := noteTitle st; noteContent := noteContent st;
     schedules := schedules st; summaries := v;
     selectedFile := selectedFile st; copilotResponse := copilotResponse st;
     online := online st |}.

Definition with_SelectedFile (v : selection) (st : AppState) : AppState :=
  {| activeTab := activeTab st; notes := notes st;
     noteTitle := noteTitle st; noteContent := noteContent st;
     schedules := schedules st; summaries := summaries st;
     selectedFile := v; copilotResponse := copilotResponse st;
     online := online st |}.

Definition with_CopilotResponse (v : option json) (st : AppState) : AppState :=
  {| activeTab := activeTab st; notes := notes st;
     noteTitle := noteTitle st; noteContent := noteContent st;
     schedules := schedules st; summaries := summaries st;
     selectedFile := selectedFile st; copilotResponse := v;
     online := online st |}.

Definition setNotes (v : json) : async AppState () :=
  modify (with_Notes v).

Definition setNoteTitle (v : string) : async AppState () :=
  modify (with_NoteTitle v).

Definition setNoteContent (v : string) : async AppState () :=
  modify (with_NoteContent v).

Definition setSchedules (v : json) : async AppState () :=
  modify (with_Schedules v).

Definition setSummaries (v : json) : async AppState () :=
  modify (with_Summaries v).

Definition setSelectedFile (v : selection) : async AppState () :=
  modify (with_SelectedFile v).

Definition setCopilotResponse (v : option json) : async AppState () :=
  modify (with_CopilotResponse v).

(** [[...arr, x]]. *)
Definition spread_append (arr x : json) : outcome json :=
  match iterate arr with
  | Fulfilled l => Fulfilled (JArr (l ++ [x]))
  | Rejected e => Rejected e
  end.

(** The callback of [summaries.map] in [refreshSummary]:
    [(s) => (s.id === id ? { ...s, ...refreshed } : s)]. *)
Definition refresh_one (id : prim) (refreshed s : json) : outcome json :=
  match get_prop s "id" with
  | Fulfilled v =>
      Fulfilled (if strict_eq v id then spread2 s refreshed else s)
  | Rejected e => Rejected e
  end.

(** [l.map(f)] for a callback that may throw: the first exception
    aborts the traversal. *)
Fixpoint map_outcome (f : json → outcome json) (l : list json)
  : outcome (list json) :=
  match l with
  | [] => Fulfilled []
  | x :: l' =>
      match f x with
      | Fulfilled y =>
          match map_outcome f l' with
          | Fulfilled ys => Fulfilled (y :: ys)
          | Rejected e => Rejected e
          end
      | Rejected e => Rejected e
      end
  end.

(** [arr.map(f)]: only arrays have a [map] method; on [null] the
    property access throws, on any other value [arr.map] is [undefined]
    and the call throws. *)
Definition array_map (f : json → outcome json) (arr : json) : outcome json :=
  match arr with
  | JArr l =>
      match map_outcome f l with
      | Fulfilled l' => Fulfilled (JArr l')
      | Rejected e => Rejected e
      end
  | _ => Rejected TypeError
  end.

Section Handlers.
Context (env : Env).

(** Each handler is a closure over the state [st] of the render that
    created it: it reads [st] and writes through the setters. *)
Variable st : AppState.

(** The effect run once after the first render. *)
Definition loadData : async AppState () :=
  try_catch (
    let* notesData := getJSON env "/api/notes" in
    setNotes notesData ;;
    let* schedulesData := getJSON env "/api/schedule" in
    setSchedules schedulesData ;;
    let* summariesData := getJSON env "/api/summaries" in
    setSummaries summariesData).

Definition createNote : async AppState () :=
  if falsy_string (noteTitle st) || falsy_string (noteContent st)
  then ret ()
  else
    let* newNote :=
      postJSON env "/api/notes"
        (JObj {[ "title" := JStr (noteTitle st);
                 "content" := JStr (noteContent st) ]}) in
    let* arr := lift (spread_append (notes st) newNote) in
    setNotes arr ;;
    setNoteTitle "" ;;
    setNoteContent "".

Definition createSchedule : async AppState () :=
  let* now := date_now in
  let* newSchedule :=
    postJSON env "/api/schedule"
      (JObj {[ "title" := JStr "Test Reminder";
               "description" := JStr "This is a reminder";
               "scheduled_time" := JStr now;
               "notification_type" := JStr "reminder" ]}) in
  let* arr := lift (spread_append (schedules st) newSchedule) in
  setSchedules arr.

Definition refreshSummary (id : prim) : async AppState () :=
  let* refreshed :=
    postJSON env ("/api/refresh-summary/" +:+ to_string id) (JObj ∅) in
  let* arr := lift (array_map (refresh_one id refreshed) (summaries st)) in
  setSummaries arr.

Definition uploadPDF : async AppState () :=
  match selectedFile st with
  | NullFile | UndefinedFile => ret ()
  | Selected file =>
      let* uploaded := postFile env "/api/upload-pdf" file in
      let* arr := lift (spread_append (summaries st) uploaded) in
      setSummaries arr ;;
      setSelectedFile NullFile
  end.

Definition runCopilotCommand (command : string) : async AppState () :=
  let* result :=
    postJSON env "/api/copilot/process-command"
      (JObj {[ "command" := JStr command ]}) in
  let* response := lift (get_prop result "response") in
  setCopilotResponse response.

End Handlers.

(** The handlers a user can trigger from the rendered page. *)
Inductive operation :=
| CreateNote
| CreateSchedule
| UploadPDF
| RefreshSummary (id : prim)
| RunCopilotCommand (command : string).

Definition handler (env : Env) (st : AppState) (op : operation)
  : async AppState () :=
  match op with
  | CreateNote => createNote env st
  | CreateSchedule => createSchedule env st
  | UploadPDF => uploadPDF env st
  | RefreshSummary id => refreshSummary env st id
  | RunCopilotCommand command => runCopilotCommand env command
  end.

(** One handler run to completion from the state [st] it was created
    in, with no other update in between. *)
Definition run (env : Env) (w : world) (st : AppState) (op : operation)
  : list request * AppState * outcome () :=
  handler env st op w st.

End App.

(* ===================================================================== *)
(** ** [src/frontend/src/App.js]: the page and its events *)
(* ===================================================================== *)

Module Ui.
Import Api App.

Definition with_ActiveTab (v : string) (st : AppState) : AppState :=
  {| activeTab := v; notes := notes st;
     noteTitle := noteTitle st; noteContent := noteContent st;
     schedules := schedules st; summaries := summaries st;
     selectedFile := selectedFile st; copilotResponse := copilotResponse st;
     online := online st |}.

Definition with_Online (v : bool) (st : AppState) : AppState :=
  {| activeTab := activeTab st; notes := notes st;
     noteTitle := noteTitle st; noteContent := noteContent st;
     schedules := schedules st; summaries := summaries st;
     selectedFile := selectedFile st; copilotResponse := copilotResponse st;
     online := v |}.

Definition setActiveTab (v : string) : async AppState () :=
  modify (with_ActiveTab v).

Definition setOnline (v : bool) : async AppState () :=
  modify (with_Online v).

(** The listeners of the first effect. *)
Definition handleOnline : async AppState () := setOnline true.
Definition handleOffline : async AppState () := setOnline false.

(** The array the [nav] maps over: one button per tab. *)
Definition tabs : list string :=
  [ "pdf"; "notes"; "schedule"; "summaries"; "copilot" ].

(** The five sections of the page, each under its guard
    [activeTab === "..." && (...)], named by the literal of the guard. *)
Definition section_guards : list string :=
  [ "pdf"; "notes"; "schedule"; "summaries"; "copilot" ].

(** The guards that hold in the state [st]: the sections the component
    asks for when it renders [st].  Whether that render completes is
    another matter: the JSX of a section can throw (a list cell that is
    not an array, a [null] entry), and the page is then unmounted and
    shows nothing. *)
Definition sections (st : AppState) : list string :=
  filter (λ name, activeTab st = name) section_guards.

(** A value as a primitive; an object or an array is none. *)
Definition as_prim (v : option json) : option prim :=
  match v with
  | None => Some PUndefined
  | Some JNull => Some PNull
  | Some (JBool b) => Some (PBool b)
  | Some (JNum n) => Some (PNum n)
  | Some (JStr s) => Some (PStr s)
  | Some (JArr _) | Some (JObj _) => None
  end.

Section Listeners.
Context (env : Env).

(** [onChange={(e) => setSelectedFile(e.target.files[0])}]. *)
Definition onFileChange (files : list File) : async AppState () :=
  setSelectedFile (match head files with
                   | Some file => Selected file
                   | None => UndefinedFile
                   end).

(** [onChange={(e) => setNoteTitle(e.target.value)}]. *)
Definition onTitleChange (value : string) : async AppState () :=
  setNoteTitle value.

(** [onChange={(e) => setNoteContent(e.target.value)}]. *)
Definition onContentChange (value : string) : async AppState () :=
  setNoteContent value.

(** [onKeyDown={(e) => e.key === "Enter" &&
    runCopilotCommand(e.target.value)}]. *)
Definition onKeyDown (key value : string) : async AppState () :=
  if bool_decide (key = "Enter") then runCopilotCommand env value
  else ret ().

End Listeners.

(** What can happen to the mounted component. *)
Inductive event :=
| WindowOnline
| WindowOffline
| Mount
| ClickTab (tab : string)
| ChangeFile (files : list File)
| ClickUpload
| ChangeTitle (value : string)
| ChangeContent (value : string)
| ClickAddNote
| ClickCreateSchedule
| ClickRefresh (i : nat)
| KeyDown (key value : string).

(** The button [Refresh] of the entry [i] of the summaries calls
    [refreshSummary(s.id)] for that entry [s]; entries whose id is an
    object or an array are left out, [refreshSummary] being modelled on
    primitive ids. *)
Definition onRefreshClick (env : Env) (st : AppState) (i : nat)
  : option (async AppState ()) :=
  match summaries st with
  | JArr l =>
      match l !! i with
      | Some s =>
          match get_prop s "id" with
          | Fulfilled v => refreshSummary env st <$> as_prim v
          | Rejected _ => None
          end
      | None => None
      end
  | _ => None
  end.

(** The reaction of the component rendered in state [st] to an event,
    [None] when that render has no control for the event: a tab button
    exists for each of [tabs], the controls of a section exist while the
    section is rendered.  [Mount] is the effect that loads the data. *)
Definition on_event (env : Env) (st : AppState) (ev : event)
  : option (async AppState ()) :=
  let visible (name : string) (c : option (async AppState ())) :=
    if bool_decide (name ∈ sections st) then c else None in
  match ev with
  | WindowOnline => Some handleOnline
  | WindowOffline => Some handleOffline
  | Mount => Some (loadData env)
  | ClickTab tab =>
      if bool_decide (tab ∈ tabs) then Some (setActiveTab tab) else None
  | ChangeFile files => visible "pdf" (Some (onFileChange files))
  | ClickUpload => visible "pdf" (Some (uploadPDF env st))
  | ChangeTitle value => visible "notes" (Some (onTitleChange value))
  | ChangeContent value => visible "notes" (Some (onContentChange value))
  | ClickAddNote => visible "notes" (Some (createNote env st))
  | ClickCreateSchedule => visible "schedule" (Some (createSchedule env st))
  | ClickRefresh i => visible "summaries" (onRefreshClick env st i)
  | KeyDown key value => visible "copilot" (Some (onKeyDown env key value))
  end.

(** One event handled to completion in the world [w]: the requests it
    sends and the next state. *)
Definition step (env : Env) (w : world) (st : AppState) (ev : event)
  : option (list request * AppState) :=
  (λ c, (requests (c w st), final (c w st))) <$> on_event env st ev.

(** A sequence of events, each with the world it happens in, handled
    one after the other.  The page runs [Mount] once, after its first
    render, and stops handling events when a render throws; a trace may
    hold [Mount] anywhere and goes on regardless, so the traces of the
    page are among the traces here. *)
Fixpoint exec (env : Env) (st : AppState) (trace : list (world * event))
  : option AppState :=
  match trace with
  | [] => Some st
  | (w, ev) :: trace' =>
      match step env w st ev with
      | Some (_, st') => exec env st' trace'
      | None => None
      end
  end.

End Ui.

(** *** The listeners of the window *)

Module Window.
Section Targets.
(** The callbacks, compared by identity. *)
Context {L : Type} `{EqDecision L}.

(** [addEventListener(type, cb)]: a listener already registered for the
    type is not registered again. *)
Definition addEventListener (type : string) (cb : L)
    (ls : list (string * L)) : list (string * L) :=
  if bool_decide ((type, cb) ∈ ls) then ls else ls ++ [(type, cb)].

(** [removeEventListener(type, cb)]. *)
Definition removeEventListener (type : string) (cb : L)
    (ls : list (string * L)) : list (string * L) :=
  filter (λ entry, entry ≠ (type, cb)) ls.

(** The body of the first effect of [App], for the two callbacks
    [handleOnline] and [handleOffline] it creates. *)
Definition subscribe (handleOnline handleOffline : L)
    (ls : list (string * L)) : list (string * L) :=
  addEventListener "offline" handleOffline
    (addEventListener "online" handleOnline ls).

(** The function the effect returns, run when the component unmounts. *)
Definition cleanup (handleOnline handleOffline : L)
    (ls : list (string * L)) : list (string * L) :=
  removeEventListener "offline" handleOffline
    (removeEventListener "online" handleOnline ls).

(** The callbacks an event of the given type calls, in order. *)
Definition listeners_of (type : string) (ls : list (string * L)) : list L :=
  (filter (λ entry, entry.1 = type) ls).*2.

End Targets.
End Window.

(* ===================================================================== *)
(** ** [src/frontend/script.js] *)
(* ===================================================================== *)

Module Script.

(** The two elements of the page the script touches, [None] when the
    page has no element of that id: the files of [#pdfInput], and the
    value last assigned to the [innerText] of [#output]. *)
Record Dom := mkDom {
  pdfInput : option (list File);
  output : option (option json)
}.

Definition set_output_innerText (v : option json) : async Dom () :=
  modify (λ d, {| pdfInput := pdfInput d; output := Some v |}).

Definition uploadPDF : async Dom () :=
  let* dom := get in
  match pdfInput dom with
  | None => throw TypeError
  | Some files =>
      let formData :=
        [ ("file", match head files with
                   | Some file => FormFile file
                   | None => FormString "undefined"
                   end) ] in
      let* res := fetch {| url := "/api/upload-pdf";
                           method := "POST";
                           headers := [ ("X-API-Key",
                                         Some "resource-app-copilot-key-2024") ];
                           req_body := BodyForm formData |} in
      let* data := res_json res in
      let* dom' := get in
      match output dom' with
      | None => throw TypeError
      | Some _ =>
          let* summary := lift (get_prop data "summary") in
          set_output_innerText summary
      end
  end.

End Script.

(* ===================================================================== *)
(** ** The backend contract of the specification *)
(* ===================================================================== *)

(** The backend is documented but has no source file next to the
    frontend; the module [Summarizer] below follows section 4.1 of the
    specification. *)

Module Text.

Definition is_space (c : Ascii.ascii) : bool :=
  let n := Ascii.N_of_ascii c in
  ((n =? 32) || (n =? 9) || (n =? 10) || (n =? 13) || (n =? 11) || (n =? 12))%N.

Definition lower_ascii (c : Ascii.ascii) : Ascii.ascii :=
  let n := Ascii.N_of_ascii c in
  if ((65 <=? n) && (n <=? 90))%N then Ascii.ascii_of_N (n + 32) else c.

Fixpoint lowercase (s : string) : string :=
  match s with
  | EmptyString => EmptyString
  | String c s' => String (lower_ascii c) (lowercase s')
  end.

(** Empty or whitespace only. *)
Fixpoint is_blank (s : string) : bool :=
  match s with
  | EmptyString => true
  | String c s' => is_space c && is_blank s'
  end.

(** The maximal runs of non-space characters of [s], [cur] being the run
    read so far. *)
Fixpoint words_from (cur s : string) : list string :=
  match s with
  | EmptyString => if falsy_string cur then [] else [cur]
  | String c s' =>
      if is_space c
      then (if falsy_string cur then words_from "" s'
            else cur :: words_from "" s')
      else words_from (cur +:+ String c "") s'
  end.

Definition tokenize (text : string) : list string :=
  words_from "" (lowercase text).

End Text.

Module Summarizer.
Import Text.

Inductive method_tag := Ai | KeywordFallback.

(** The tag as the contract spells it. *)
Definition tag_name (m : method_tag) : string :=
  match m with
  | Ai => "ai"
  | KeywordFallback => "keyword-fallback"
  end.

Record result := mkResult { summary : string; method : method_tag }.

(** The number of occurrences of [t] among [terms]. *)
Fixpoint frequency (t : string) (terms : list string) : nat :=
  match terms with
  | [] => 0
  | u :: terms' =>
      ((if bool_decide (u = t) then 1 else 0) + frequency t terms')%nat
  end.

(** [t] goes before the first term that is not more frequent. *)
Fixpoint insert_ranked (f : string → nat) (t : string) (l : list string)
  : list string :=
  match l with
  | [] => [t]
  | u :: l' =>
      if (f u <=? f t)%nat then t :: u :: l'
      else u :: insert_ranked f t l'
  end.

(** The distinct terms, most frequent first, ties in order of first
    occurrence. *)
Definition rank (terms : list string) : list string :=
  foldr (insert_ranked (λ t, frequency t terms)) [] (remove_dups terms).

Definition top_terms : nat := 5.

Definition no_content : string := "No content to summarize.".

Section Selector.
(** The collaborators the contract leaves open: the attempt at the AI
    provider ([None] on a timeout, an error response or an unreachable
    network) and the stop-word list. *)
Variable ai_summarize : string → option string.
Variable stopwords : list string.

(** Modelled from the spec: the keyword fallback of section 4.1
    (tokenize, remove stopwords, rank terms by frequency, compose a
    short summary from the highest-ranked terms; an explicit "no
    content to summarize" result for empty or whitespace-only input),
    whose source is not part of the frontend.  The tokens are the
    lower-cased whitespace-separated words, the summary lists the
    [top_terms] most frequent terms, and a text made of stop words only
    is ranked on all its words: the specification asks for a non-empty
    summary there and leaves the means open. *)
Definition keyword_summary (text : string) : string :=
  if is_blank text then no_content
  else
    let tokens := tokenize text in
    let kept := filter (λ t, t ∉ stopwords) tokens in
    let terms := match kept with [] => tokens | _ :: _ => kept end in
    String.concat ", " (take top_terms (rank terms)).

(** Modelled from the spec: the selector
    [summarize(text, allow_network) -> (summary, method)] of section
    4.1, whose source is not part of the frontend: the AI provider is
    tried first when the network is allowed, and every failure of that
    path falls back to [keyword_summary]. *)
Definition summarize (text : string) (allow_network : bool) : result :=
  if allow_network then
    match ai_summarize text with
    | Some s => {| summary := s; method := Ai |}
    | None => {| summary := keyword_summary text;
                 method := KeywordFallback |}
    end
  else {| summary := keyword_summary text; method := KeywordFallback |}.

(** The AI path fails: the network is not allowed, or the attempt
    itself fails. *)
Definition ai_fails (text : string) (allow_network : bool) : Prop :=
  allow_network = false ∨ ai_summarize text = None.

End Selector.
End Summarizer.

(* ===================================================================== *)
(** ** Vocabulary of the specification *)
(* ===================================================================== *)

Import Api App.

(** The names of the headers a request carries. *)
Definition header_names (r : request) : list string := (headers r).*1.

Definition has_header (name : string) (r : request) : Prop :=
  name ∈ header_names r.

(** The parsed JSON body of the answer to [r], as [res.json()] gives it
    after [fetch] resolved. *)
Definition parsed_body (w : world) (r : request) : outcome json :=
  match answer w r with
  | Some res =>
      match parsed res with
      | Some j => Fulfilled j
      | None => Rejected SyntaxError
      end
  | None => Rejected NetworkError
  end.

(** Every request of a computation satisfies [P]. *)
Definition sends {S A} (P : request → Prop) (c : async S A) : Prop :=
  ∀ w st, Forall P (requests (c w st)).

(** The requests of the three helpers. *)
Definition post_request (env : Env) (endpoint : string) (data : json)
  : request :=
  {| url := template (API_BASE_URL env) +:+ endpoint;
     method := "POST";
     headers := [ ("X-API-Key", API_KEY env);
                  ("Content-Type", Some "application/json") ];
     req_body := BodyJSON data |}.

Definition get_request (env : Env) (endpoint : string) : request :=
  {| url := template (API_BASE_URL env) +:+ endpoint;
     method := "GET";
     headers := [ ("X-API-Key", API_KEY env) ];
     req_body := NoBody |}.

Definition file_request (env : Env) (endpoint : string) (file : File)
  : request :=
  {| url := template (API_BASE_URL env) +:+ endpoint;
     method := "POST";
     headers := [ ("X-API-Key", API_KEY env) ];
     req_body := BodyForm [ ("file", FormFile file) ] |}.

(** The five endpoints of the documentation. *)
Definition documented_endpoints : list string :=
  [ "/api/copilot/process-command"; "/api/upload-pdf"; "/api/notes";
    "/api/schedule"; "/api/summaries" ].

(** [r] goes to the path [p] of the backend at [API_BASE_URL]. *)
Definition targets (env : Env) (r : request) (p : string) : Prop :=
  url r = template (API_BASE_URL env) +:+ p.

(** A path of the refresh endpoint. *)
Definition refresh_path (p : string) : Prop :=
  ∃ id : prim, p = "/api/refresh-summary/" +:+ to_string id.

(** What the component does on its own or on behalf of the user: the
    initial load, or one of the handlers. *)
Inductive action :=
| InitialLoad
| Handle (op : operation).

Definition sent (env : Env) (w : world) (st : AppState) (a : action)
  : list request :=
  match a with
  | InitialLoad => requests (loadData env w st)
  | Handle op => requests (run env w st op)
  end.

(** [s.id === id], false when reading [s.id] throws. *)
Definition has_id (id : prim) (s : json) : bool :=
  match get_prop s "id" with
  | Fulfilled v => strict_eq v id
  | Rejected _ => false
  end.

(** The own property [k] of [v], [None] when it has none. *)
Definition field (v : json) (k : string) : option json :=
  own_props v !! k.

(** The entry [i] of the summaries. *)
Definition nth_summary (st : AppState) (i : nat) : option json :=
  match summaries st with
  | JArr l => l !! i
  | _ => None
  end.

(** The requests of the handlers. *)
Definition note_request (env : Env) (st : AppState) : request :=
  post_request env "/api/notes"
    (JObj {[ "title" := JStr (noteTitle st);
             "content" := JStr (noteContent st) ]}).

Definition schedule_request (env : Env) (w : world) : request :=
  post_request env "/api/schedule"
    (JObj {[ "title" := JStr "Test Reminder";
             "description" := JStr "This is a reminder";
             "scheduled_time" := JStr (now_iso w);
             "notification_type" := JStr "reminder" ]}).

Definition refresh_request (env : Env) (id : prim) : request :=
  post_request env ("/api/refresh-summary/" +:+ to_string id) (JObj ∅).

Definition upload_request (env : Env) (file : File) : request :=
  file_request env "/api/upload-pdf" file.

Definition command_request (env : Env) (command : string) : request :=
  post_request env "/api/copilot/process-command"
    (JObj {[ "command" := JStr command ]}).

(** *** Sample data *)

Module Sample.

Definition env : Env :=
  {| API_BASE_URL := Some "http://localhost:8000";
     API_KEY := Some "resource-app-copilot-key-2024" |}.

(** A backend that answers every request with the JSON value [j]. *)
Definition answering (j : json) : world :=
  {| answer := λ _, Some {| status := 200; parsed := Some j |};
     now_iso := "2024-01-01T09:00:00.000Z" |}.

Definition report : json :=
  JObj {[ "id" := JNum 1; "filename" := JStr "report.pdf";
          "summary" := JStr "old"; "generation_method" := JStr "ai" ]}.

Definition minutes : json :=
  JObj {[ "id" := JNum 7; "filename" := JStr "minutes.pdf";
          "summary" := JStr "agenda"; "generation_method" := JStr "ai" ]}.

(** A refresh response that carries the regenerated fields only. *)
Definition regenerated : json :=
  JObj {[ "summary" := JStr "new";
          "generation_method" := JStr "keyword-fallback" ]}.

(** A refresh response that also carries another id. *)
Definition relabelled : json :=
  JObj {[ "id" := JNum 2; "summary" := JStr "new";
          "generation_method" := JStr "keyword-fallback" ]}.

Definition note : json :=
  JObj {[ "id" := JNum 3; "title" := JStr "Meeting";
          "content" := JStr "Budget review" ]}.

Definition file : File :=
  {| file_name := "report.pdf"; file_content := "%PDF-1.4" |}.

(** The first render, then two summaries loaded. *)
Definition with_summaries : AppState :=
  with_Summaries (JArr [report; minutes]) (initial true).

(** A title and a content typed into the notes form. *)
Definition with_draft : AppState :=
  with_NoteContent "Budget review" (with_NoteTitle "Meeting" (initial true)).

(** A file picked in the upload form. *)
Definition with_file : AppState :=
  with_SelectedFile (Selected file) with_summaries.

End Sample.

(** *** Vocabulary of the further properties *)

(** Two worlds with the same clock whose answers differ at most in the
    HTTP status. *)
Definition same_bodies (w w' : world) : Prop :=
  now_iso w = now_iso w'
  ∧ ∀ r, parsed <$> answer w r = parsed <$> answer w' r.

Definition is_array (v : json) : Prop := ∃ l, v = JArr l.

(** The three list cells hold arrays. *)
Definition lists_are_arrays (st : AppState) : Prop :=
  is_array (notes st) ∧ is_array (schedules st) ∧ is_array (summaries st).

(** Whatever JSON the backend answers to the three [GET]s of [loadData]
    is an array. *)
Definition answers_arrays (env : Env) (w : world) : Prop :=
  ∀ endpoint j,
    endpoint ∈ ["/api/notes"; "/api/schedule"; "/api/summaries"] →
    parsed_body w (get_request env endpoint) = Fulfilled j →
    is_array j.

(** A request declares [Content-Type] exactly when its body is JSON, and
    has no body exactly when it is a [GET]. *)
Definition declares_body (r : request) : Prop :=
  (has_header "Content-Type" r ↔ ∃ data, req_body r = BodyJSON data)
  ∧ (method r = "GET" ↔ req_body r = NoBody).

(** The events that only edit the page: the window going online or
    offline, a tab click, an edit of a form field, a key other than
    [Enter] in the Copilot input. *)
Definition is_edit (ev : Ui.event) : bool :=
  match ev with
  | Ui.WindowOnline | Ui.WindowOffline | Ui.ClickTab _ | Ui.ChangeFile _
  | Ui.ChangeTitle _ | Ui.ChangeContent _ => true
  | Ui.KeyDown key _ => negb (bool_decide (key = "Enter"))
  | Ui.Mount | Ui.ClickUpload | Ui.ClickAddNote | Ui.ClickCreateSchedule
  | Ui.ClickRefresh _ => false
  end.

(** The connectivity the last [online] or [offline] event of a trace
    reports, [b] when it has none. *)
Definition online_after (b : bool) (trace : list (world * Ui.event)) : bool :=
  foldl (λ b we, match we.2 with
                 | Ui.WindowOnline => true
                 | Ui.WindowOffline => false
                 | _ => b
                 end) b trace.

(** The request of the legacy uploader for the files of [#pdfInput]. *)
Definition legacy_request (files : list File) : request :=
  {| url := "/api/upload-pdf";
     method := "POST";
     headers := [ ("X-API-Key", Some "resource-app-copilot-key-2024") ];
     req_body := BodyForm [ ("file", match head files with
                                     | Some file => FormFile file
                                     | None => FormString "undefined"
                                     end) ] |}.

Module Scenario.

(** A backend that cannot be reached. *)
Definition unreachable : world :=
  {| answer := λ _, None; now_iso := "2024-01-01T09:00:00.000Z" |}.

(** A backend that answers every request with the given status and the
    JSON value [j]. *)
Definition answering_with (code : Z) (j : json) : world :=
  {| answer := λ _, Some {| status := code; parsed := Some j |};
     now_iso := "2024-01-01T09:00:00.000Z" |}.

(** The summaries tab of a page with two summaries. *)
Definition on_summaries_tab : AppState :=
  Ui.with_ActiveTab "summaries" Sample.with_summaries.

(** A page of the legacy uploader with no file chosen. *)
Definition empty_page : Script.Dom :=
  {| Script.pdfInput := Some []; Script.output := Some (Some (JStr "")) |}.

(** A visit: the data load, a switch to the notes tab, a note typed and
    added, and the connection lost. *)
Definition visit : list (world * Ui.event) :=
  [ (Sample.answering (JArr []), Ui.Mount);
    (unreachable, Ui.ClickTab "notes");
    (unreachable, Ui.ChangeTitle "Meeting");
    (unreachable, Ui.ChangeContent "Budget review");
    (Sample.answering Sample.note, Ui.ClickAddNote);
    (unreachable, Ui.WindowOffline) ].

End Scenario.

(* ===================================================================== *)
(** ** Running computations *)
(* ===================================================================== *)

Section Sends.
Context {S : Type} (P : request → Prop).

Lemma sends_ret {A} (a : A) : sends P (ret (S := S) a).
Proof. intros w st. constructor. Qed.

Lemma sends_throw {A} e : sends P (throw (S := S) (A := A) e).
Proof. intros w st. constructor. Qed.

Lemma sends_lift {A} (o : outcome A) : sends P (lift (S := S) o).
Proof. intros w st. constructor. Qed.

Lemma sends_get : sends P (get (S := S)).
Proof. intros w st. constructor. Qed.

Lemma sends_modify f : sends P (modify (S := S) f).
Proof. intros w st. constructor. Qed.

Lemma sends_date_now : sends P (date_now (S := S)).
Proof. intros w st. constructor. Qed.

Lemma sends_res_json res : sends P (res_json (S := S) res).
Proof. intros w st. unfold res_json. destruct (parsed res); constructor. Qed.

Lemma sends_fetch r : P r → sends P (fetch (S := S) r).
Proof.
  intros Hr w st. unfold fetch, requests.
  destruct (answer w r); simpl; repeat constructor; exact Hr.
Qed.

Lemma sends_bind {A B} (c : async S A) (k : A → async S B) :
  sends P c → (∀ a, sends P (k a)) → sends P (bind c k).
Proof.
  intros Hc Hk w st. unfold bind, requests.
  specialize (Hc w st). unfold requests in Hc.
  destruct (c w st) as [[log st1] [a|e]]; simpl in *; [|exact Hc].
  specialize (Hk a w st1). unfold requests in Hk.
  destruct (k a w st1) as [[log' st2] r]; simpl in *.
  apply Forall_app; split; assumption.
Qed.

Lemma sends_try_catch (c : async S ()) : sends P c → sends P (try_catch c).
Proof.
  intros Hc w st. unfold try_catch, requests.
  specialize (Hc w st). unfold requests in Hc.
  destruct (c w st) as [[log st1] r]; exact Hc.
Qed.

End Sends.

Create HintDb sends.
#[local] Hint Resolve sends_ret sends_throw sends_lift sends_get
  sends_modify sends_date_now sends_res_json sends_try_catch : sends.

(** One [fetch] followed by [res.json()]. *)
Lemma fetch_json_run {S} (r : request) (w : world) (st : S) :
  (let* res := fetch r in res_json res) w st = ([r], st, parsed_body w r).
Proof.
  unfold bind, fetch, res_json, parsed_body.
  destruct (answer w r) as [res|]; [|reflexivity].
  destruct (parsed res); reflexivity.
Qed.

Lemma postJSON_run {S} env endpoint data (w : world) (st : S) :
  postJSON env endpoint data w st
  = ([post_request env endpoint data], st,
     parsed_body w (post_request env endpoint data)).
Proof. apply fetch_json_run. Qed.

Lemma getJSON_run {S} env endpoint (w : world) (st : S) :
  getJSON env endpoint w st
  = ([get_request env endpoint], st,
     parsed_body w (get_request env endpoint)).
Proof. apply fetch_json_run. Qed.

Lemma postFile_run {S} env endpoint file (w : world) (st : S) :
  postFile env endpoint file w st
  = ([file_request env endpoint file], st,
     parsed_body w (file_request env endpoint file)).
Proof. apply fetch_json_run. Qed.

Lemma postJSON_sends {S} P env endpoint data :
  P (post_request env endpoint data) →
  sends P (postJSON (S := S) env endpoint data).
Proof. intros HP w st. rewrite postJSON_run. repeat constructor. exact HP. Qed.

Lemma getJSON_sends {S} P env endpoint :
  P (get_request env endpoint) → sends P (getJSON (S := S) env endpoint).
Proof. intros HP w st. rewrite getJSON_run. repeat constructor. exact HP. Qed.

Lemma postFile_sends {S} P env endpoint file :
  P (file_request env endpoint file) →
  sends P (postFile (S := S) env endpoint file).
Proof. intros HP w st. rewrite postFile_run. repeat constructor. exact HP. Qed.

#[local] Hint Resolve postJSON_sends getJSON_sends postFile_sends : sends.

(** Splits a computation along its binds and closes the leaves with the
    hints of [sends]. *)
Ltac sends_steps :=
  repeat first
    [ simple apply postJSON_sends
    | simple apply getJSON_sends
    | simple apply postFile_sends
    | simple apply sends_bind; [|intros] ];
  eauto with sends.

(** What holds of the requests of the helpers holds of every request of
    the component. *)
Lemma component_sends (P : request → Prop) env :
  (∀ endpoint data,
     endpoint ∈ ["/api/notes"; "/api/schedule";
                 "/api/copilot/process-command"] ∨ refresh_path endpoint →
     P (post_request env endpoint data)) →
  (∀ endpoint,
     endpoint ∈ ["/api/notes"; "/api/schedule"; "/api/summaries"] →
     P (get_request env endpoint)) →
  (∀ file, P (file_request env "/api/upload-pdf" file)) →
  ∀ w st a, Forall P (sent env w st a).
Proof.
  intros Hpost Hget Hfile.
  assert (Hload : sends P (loadData env)).
  { unfold loadData. apply sends_try_catch.
    sends_steps; apply Hget; set_solver. }
  assert (Hop : ∀ st op, sends P (handler env st op)).
  { intros st op. destruct op as [| | |id|command]; unfold handler.
    - unfold createNote.
      destruct (falsy_string (noteTitle st) || falsy_string (noteContent st));
        [apply sends_ret|].
      sends_steps. apply Hpost. left. set_solver.
    - unfold createSchedule. sends_steps.
      apply Hpost. left. set_solver.
    - unfold uploadPDF.
      destruct (selectedFile st); [apply sends_ret..|].
      sends_steps.
    - unfold refreshSummary. sends_steps.
      apply Hpost. right. by exists id.
    - unfold runCopilotCommand. sends_steps.
      apply Hpost. left. set_solver. }
  intros w st [|op]; unfold sent, run; [apply Hload|apply Hop].
Qed.

Lemma script_sends (P : request → Prop) :
  (∀ fd, P {| url := "/api/upload-pdf"; method := "POST";
              headers := [ ("X-API-Key",
                            Some "resource-app-copilot-key-2024") ];
              req_body := BodyForm fd |}) →
  sends P Script.uploadPDF.
Proof.
  intros HP. unfold Script.uploadPDF.
  apply sends_bind; [apply sends_get|]. intros dom.
  destruct (Script.pdfInput dom) as [files|]; [|apply sends_throw].
  apply sends_bind; [apply sends_fetch, HP|]. intros res.
  apply sends_bind; [apply sends_res_json|]. intros data.
  apply sends_bind; [apply sends_get|]. intros dom'.
  destruct (Script.output dom'); [|apply sends_throw].
  apply sends_bind; [apply sends_lift|]. intros summary.
  apply sends_modify.
Qed.

(* ===================================================================== *)
(** ** The shared-secret header *)
(* ===================================================================== *)

(** C1: every request the frontend constructs carries the header
    [X-API-Key]: each of [postJSON], [getJSON] and [postFile] sends
    exactly one request and it has the header, and so has every request
    of the legacy [uploadPDF] of [script.js], of the initial load and of
    every handler of the component. *)
Theorem api_key_on_every_request (env : Env) (w : world) :
  (∀ S (st : S) endpoint data,
     ∃ r, requests (postJSON env endpoint data w st) = [r]
          ∧ has_header "X-API-Key" r)
  ∧ (∀ S (st : S) endpoint,
       ∃ r, requests (getJSON env endpoint w st) = [r]
            ∧ has_header "X-API-Key" r)
  ∧ (∀ S (st : S) endpoint file,
       ∃ r, requests (postFile env endpoint file w st) = [r]
            ∧ has_header "X-API-Key" r)
  ∧ (∀ dom, Forall (has_header "X-API-Key")
              (requests (Script.uploadPDF w dom)))
  ∧ (∀ st a, Forall (has_header "X-API-Key") (sent env w st a)).
Proof.
  assert (Hhd : ∀ r, head (header_names r) = Some "X-API-Key" →
                     has_header "X-API-Key" r).
  { intros r Hr. unfold has_header.
    destruct (header_names r) as [|h t]; simplify_eq/=. left. }
  repeat split.
  - intros S st endpoint data. eexists. rewrite postJSON_run.
    split; [reflexivity|]. by apply Hhd.
  - intros S st endpoint. eexists. rewrite getJSON_run.
    split; [reflexivity|]. by apply Hhd.
  - intros S st endpoint file. eexists. rewrite postFile_run.
    split; [reflexivity|]. by apply Hhd.
  - intros dom. apply script_sends. intros fd. by apply Hhd.
  - intros st a. apply component_sends; intros; by apply Hhd.
Qed.

(* ===================================================================== *)
(** ** The handlers, run to completion *)
(* ===================================================================== *)

Lemma createNote_run env w st :
  run env w st CreateNote =
  if falsy_string (noteTitle st) || falsy_string (noteContent st)
  then ([], st, Fulfilled ())
  else
    match parsed_body w (note_request env st) with
    | Fulfilled newNote =>
        match iterate (notes st) with
        | Fulfilled l =>
            ([note_request env st],
             with_NoteContent ""
               (with_NoteTitle "" (with_Notes (JArr (l ++ [newNote])) st)),
             Fulfilled ())
        | Rejected e => ([note_request env st], st, Rejected e)
        end
    | Rejected e => ([note_request env st], st, Rejected e)
    end.
Proof.
  unfold run, handler, createNote.
  destruct (falsy_string (noteTitle st) || falsy_string (noteContent st));
    [reflexivity|].
  unfold bind. rewrite postJSON_run. fold (note_request env st).
  destruct (parsed_body w (note_request env st)) as [newNote|e];
    [|reflexivity].
  unfold lift, spread_append.
  destruct (iterate (notes st)); reflexivity.
Qed.

Lemma createSchedule_run env w st :
  run env w st CreateSchedule =
  match parsed_body w (schedule_request env w) with
  | Fulfilled newSchedule =>
      match iterate (schedules st) with
      | Fulfilled l =>
          ([schedule_request env w],
           with_Schedules (JArr (l ++ [newSchedule])) st, Fulfilled ())
      | Rejected e => ([schedule_request env w], st, Rejected e)
      end
  | Rejected e => ([schedule_request env w], st, Rejected e)
  end.
Proof.
  unfold run, handler, createSchedule, bind, date_now.
  rewrite postJSON_run. fold (schedule_request env w).
  destruct (parsed_body w (schedule_request env w)) as [newSchedule|e];
    [|reflexivity].
  unfold lift, spread_append.
  destruct (iterate (schedules st)); reflexivity.
Qed.

Lemma refreshSummary_run env w st id :
  run env w st (RefreshSummary id) =
  match parsed_body w (refresh_request env id) with
  | Fulfilled refreshed =>
      match array_map (refresh_one id refreshed) (summaries st) with
      | Fulfilled arr =>
          ([refresh_request env id], with_Summaries arr st, Fulfilled ())
      | Rejected e => ([refresh_request env id], st, Rejected e)
      end
  | Rejected e => ([refresh_request env id], st, Rejected e)
  end.
Proof.
  unfold run, handler, refreshSummary, bind.
  rewrite postJSON_run. fold (refresh_request env id).
  destruct (parsed_body w (refresh_request env id)) as [refreshed|e];
    [|reflexivity].
  unfold lift.
  destruct (array_map (refresh_one id refreshed) (summaries st));
    reflexivity.
Qed.

Lemma uploadPDF_run env w st :
  run env w st UploadPDF =
  match selectedFile st with
  | NullFile | UndefinedFile => ([], st, Fulfilled ())
  | Selected file =>
      match parsed_body w (upload_request env file) with
      | Fulfilled uploaded =>
          match iterate (summaries st) with
          | Fulfilled l =>
              ([upload_request env file],
               with_SelectedFile NullFile
                 (with_Summaries (JArr (l ++ [uploaded])) st),
               Fulfilled ())
          | Rejected e => ([upload_request env file], st, Rejected e)
          end
      | Rejected e => ([upload_request env file], st, Rejected e)
      end
  end.
Proof.
  unfold run, handler, uploadPDF.
  destruct (selectedFile st) as [| |file]; [reflexivity..|].
  unfold bind. rewrite postFile_run. fold (upload_request env file).
  destruct (parsed_body w (upload_request env file)) as [uploaded|e];
    [|reflexivity].
  unfold lift, spread_append.
  destruct (iterate (summaries st)); reflexivity.
Qed.

Lemma runCopilotCommand_run env w st command :
  run env w st (RunCopilotCommand command) =
  match parsed_body w (command_request env command) with
  | Fulfilled result =>
      match get_prop result "response" with
      | Fulfilled response =>
          ([command_request env command],
           with_CopilotResponse response st, Fulfilled ())
      | Rejected e => ([command_request env command], st, Rejected e)
      end
  | Rejected e => ([command_request env command], st, Rejected e)
  end.
Proof.
  unfold run, handler, runCopilotCommand, bind.
  rewrite postJSON_run. fold (command_request env command).
  destruct (parsed_body w (command_request env command)) as [result|e];
    [|reflexivity].
  unfold lift.
  destruct (get_prop result "response"); reflexivity.
Qed.

(* ===================================================================== *)
(** ** The helpers of [api.js] *)
(* ===================================================================== *)

(** C10: [postFile] sends one request whose only header is [X-API-Key],
    so it has no [Content-Type] header; [postJSON] sends one request with
    the two headers [X-API-Key] and [Content-Type: application/json]; and
    each of [postJSON], [getJSON] and [postFile] returns the parsed JSON
    body of the response to its request, leaving the state alone. *)
Theorem helpers_headers_and_result (env : Env) (w : world) :
  (∀ S (st : S) endpoint file,
     ∃ r, postFile env endpoint file w st = ([r], st, parsed_body w r)
          ∧ headers r = [ ("X-API-Key", API_KEY env) ]
          ∧ ¬ has_header "Content-Type" r)
  ∧ (∀ S (st : S) endpoint data,
       ∃ r, postJSON env endpoint data w st = ([r], st, parsed_body w r)
            ∧ headers r = [ ("X-API-Key", API_KEY env);
                            ("Content-Type", Some "application/json") ])
  ∧ (∀ S (st : S) endpoint,
       ∃ r, getJSON env endpoint w st = ([r], st, parsed_body w r)).
Proof.
  repeat split.
  - intros S st endpoint file. exists (file_request env endpoint file).
    split; [apply postFile_run|]. split; [reflexivity|].
    unfold has_header, header_names; simpl.
    intros Hin. apply list_elem_of_singleton in Hin. discriminate.
  - intros S st endpoint data. exists (post_request env endpoint data).
    split; [apply postJSON_run|reflexivity].
  - intros S st endpoint. exists (get_request env endpoint).
    apply getJSON_run.
Qed.

(* ===================================================================== *)
(** ** Notes *)
(* ===================================================================== *)

Lemma falsy_string_empty s : falsy_string s = true ↔ s = "".
Proof. destruct s; simpl; split; congruence. Qed.

Lemma createNote_guard_false st :
  noteTitle st ≠ "" → noteContent st ≠ "" →
  falsy_string (noteTitle st) || falsy_string (noteContent st) = false.
Proof.
  intros Ht Hc. apply orb_false_intro.
  - destruct (falsy_string (noteTitle st)) eqn:E; [|reflexivity].
    by apply falsy_string_empty in E.
  - destruct (falsy_string (noteContent st)) eqn:E; [|reflexivity].
    by apply falsy_string_empty in E.
Qed.

(** C8: with an empty title or an empty content [createNote] sends no
    request and leaves the whole state unchanged; otherwise, once it has
    completed, the title and the content are the empty string (and it
    does complete, with the new note appended, when the backend answers
    with JSON and [notes] is iterable). *)
Theorem createNote_guard (env : Env) (w : world) (st : AppState) :
  (noteTitle st = "" ∨ noteContent st = "" →
     run env w st CreateNote = ([], st, Fulfilled ()))
  ∧ (noteTitle st ≠ "" → noteContent st ≠ "" →
     result (run env w st CreateNote) = Fulfilled () →
     noteTitle (final (run env w st CreateNote)) = ""
     ∧ noteContent (final (run env w st CreateNote)) = "")
  ∧ (noteTitle st ≠ "" → noteContent st ≠ "" →
     ∀ newNote l,
       parsed_body w (note_request env st) = Fulfilled newNote →
       iterate (notes st) = Fulfilled l →
       run env w st CreateNote
       = ([note_request env st],
          with_NoteContent ""
            (with_NoteTitle "" (with_Notes (JArr (l ++ [newNote])) st)),
          Fulfilled ())).
Proof.
  split; [|split].
  - intros Hempty. rewrite createNote_run.
    destruct Hempty as [-> | ->]; simpl; [reflexivity|].
    by rewrite orb_true_r.
  - intros Ht Hc. rewrite createNote_run, createNote_guard_false by done.
    destruct (parsed_body w (note_request env st)); [|discriminate].
    destruct (iterate (notes st)); [|discriminate].
    intros _. split; reflexivity.
  - intros Ht Hc newNote l Hbody Hiter.
    rewrite createNote_run, createNote_guard_false by done.
    by rewrite Hbody, Hiter.
Qed.

Lemma createNote_guard_witness :
  run Sample.env (Sample.answering Sample.note) (initial true) CreateNote
  = ([], initial true, Fulfilled ())
  ∧ run Sample.env (Sample.answering Sample.note) Sample.with_draft
      CreateNote
    = ([note_request Sample.env Sample.with_draft],
       with_NoteContent ""
         (with_NoteTitle ""
            (with_Notes (JArr [Sample.note]) Sample.with_draft)),
       Fulfilled ()).
Proof.
  split.
  - apply (createNote_guard Sample.env (Sample.answering Sample.note)
             (initial true)).
    left. reflexivity.
  - destruct (createNote_guard Sample.env (Sample.answering Sample.note)
                Sample.with_draft) as (_ & _ & Hsent).
    apply (Hsent ltac:(discriminate) ltac:(discriminate) Sample.note []);
      reflexivity.
Defined.

(** C5: notes are append-only for the handlers: every handler other than
    [createNote] leaves [notes] as it is; [createNote] leaves it as it
    is or sets it to the old notes followed by one new note, the
    backend's answer; so the notes present before are, in the same order,
    the first notes afterwards. *)
Theorem notes_append_only (env : Env) (w : world) (st : AppState)
    (op : operation) :
  (op ≠ CreateNote → notes (final (run env w st op)) = notes st)
  ∧ (op = CreateNote →
     notes (final (run env w st op)) = notes st
     ∨ ∃ l newNote,
         iterate (notes st) = Fulfilled l
         ∧ parsed_body w (note_request env st) = Fulfilled newNote
         ∧ notes (final (run env w st op)) = JArr (l ++ [newNote]))
  ∧ (∀ l, iterate (notes st) = Fulfilled l →
     ∃ l', iterate (notes (final (run env w st op))) = Fulfilled l'
           ∧ l `prefix_of` l').
Proof.
  assert (Hcreate :
    notes (final (run env w st CreateNote)) = notes st
    ∨ ∃ l newNote,
        iterate (notes st) = Fulfilled l
        ∧ parsed_body w (note_request env st) = Fulfilled newNote
        ∧ notes (final (run env w st CreateNote)) = JArr (l ++ [newNote])).
  { rewrite createNote_run.
    destruct (falsy_string (noteTitle st) || falsy_string (noteContent st));
      [by left|].
    destruct (parsed_body w (note_request env st)) as [newNote|e];
      [|by left].
    destruct (iterate (notes st)) as [l|e]; [|by left].
    right. by exists l, newNote. }
  assert (Hother : op ≠ CreateNote →
                   notes (final (run env w st op)) = notes st).
  { intros Hop. destruct op as [| | |id|command]; [done|..].
    - rewrite createSchedule_run.
      destruct (parsed_body w (schedule_request env w)); [|done].
      by destruct (iterate (schedules st)).
    - rewrite uploadPDF_run. destruct (selectedFile st); [done..|].
      destruct (parsed_body w (upload_request env f)); [|done].
      by destruct (iterate (summaries st)).
    - rewrite refreshSummary_run.
      destruct (parsed_body w (refresh_request env id)) as [j|]; [|done].
      by destruct (array_map (refresh_one id j) (summaries st)).
    - rewrite runCopilotCommand_run.
      destruct (parsed_body w (command_request env command)) as [j|];
        [|done].
      by destruct (get_prop j "response"). }
  split; [exact Hother|]. split; [by intros ->|].
  intros l Hl.
  assert (op = CreateNote ∨ op ≠ CreateNote) as [->|Hne]
    by (destruct op; auto).
  - destruct Hcreate as [->|(l0 & newNote & Hl0 & _ & ->)].
    + by exists l.
    + exists (l ++ [newNote]). rewrite Hl in Hl0.
      injection Hl0 as <-. split; [reflexivity|].
      by apply prefix_app_r.
  - rewrite Hother by done. by exists l.
Qed.

(* ===================================================================== *)
(** ** Uploads *)
(* ===================================================================== *)



(* ===================================================================== *)
(** ** Refreshing a summary *)
(* ===================================================================== *)

Lemma map_outcome_Forall2 f l l' :
  map_outcome f l = Fulfilled l' →
  Forall2 (λ x y, f x = Fulfilled y) l l'.
Proof.
  revert l'. induction l as [|x l IH]; intros l' Hmap; simpl in Hmap.
  - injection Hmap as <-. constructor.
  - destruct (f x) as [y|] eqn:Hx; [|discriminate].
    destruct (map_outcome f l) as [ys|]; [|discriminate].
    injection Hmap as <-. constructor; [exact Hx|by apply IH].
Qed.

Lemma refresh_one_other id refreshed s s' :
  refresh_one id refreshed s = Fulfilled s' → has_id id s = false → s' = s.
Proof.
  unfold refresh_one, has_id.
  destruct (get_prop s "id") as [v|]; [|discriminate].
  intros Hs' Hid. rewrite Hid in Hs'. by injection Hs'.
Qed.

Lemma refresh_one_same id refreshed s s' :
  refresh_one id refreshed s = Fulfilled s' → has_id id s = true →
  s' = spread2 s refreshed.
Proof.
  unfold refresh_one, has_id.
  destruct (get_prop s "id") as [v|]; [|discriminate].
  intros Hs' Hid. rewrite Hid in Hs'. by injection Hs'.
Qed.

(** The properties of [{...s, ...r}]. *)
Lemma field_spread2 s r k :
  field (spread2 s r) k
  = match field r k with
    | Some v => Some v
    | None => field s k
    end.
Proof.
  unfold field, spread2; simpl. rewrite lookup_union.
  destruct (own_props r !! k), (own_props s !! k); reflexivity.
Qed.

Lemma refreshSummary_requests env w st id :
  requests (run env w st (RefreshSummary id)) = [refresh_request env id].
Proof.
  rewrite refreshSummary_run.
  destruct (parsed_body w (refresh_request env id)) as [j|]; [|done].
  by destruct (array_map (refresh_one id j) (summaries st)).
Qed.

(** C4: [refreshSummary(id)] either leaves the state as it is, or
    replaces the summaries, an array, by an array of the same length in
    which every record whose id is not [id] stands unchanged at its
    position; no other part of the state changes. *)
Theorem refreshSummary_frame (env : Env) (w : world) (st : AppState)
    (id : prim) :
  final (run env w st (RefreshSummary id)) = st
  ∨ ∃ l l',
      summaries st = JArr l
      ∧ final (run env w st (RefreshSummary id))
        = with_Summaries (JArr l') st
      ∧ length l' = length l
      ∧ ∀ i s, l !! i = Some s → has_id id s = false → l' !! i = Some s.
Proof.
  rewrite refreshSummary_run.
  destruct (parsed_body w (refresh_request env id)) as [refreshed|];
    [|by left].
  unfold array_map.
  destruct (summaries st) as [| | | |l|] eqn:Hsum; try by left.
  destruct (map_outcome (refresh_one id refreshed) l) as [l'|] eqn:Hmap;
    [|by left].
  right. exists l, l'. apply map_outcome_Forall2 in Hmap.
  split; [reflexivity|]. split; [reflexivity|].
  split; [symmetry; by eapply Forall2_length|].
  intros i s Hi Hid.
  destruct (Forall2_lookup_l _ _ _ _ _ Hmap Hi) as (s' & Hi' & Hs').
  by rewrite (refresh_one_other _ _ _ _ Hs' Hid) in Hi'.
Qed.

(** C3, as amended: once [refreshSummary(id)] has completed on the
    refresh response [refreshed], a record [s] whose id is [id] has
    become the merge [{...s, ...refreshed}]: each property the response
    carries has the response's value, each property it does not carry
    keeps the value of [s].  So [id] and [filename] are kept when the
    response carries none (or the same ones), and [summary] and
    [generation_method] are the response's when it carries them. *)
Theorem refreshSummary_merge (env : Env) (w : world) (st : AppState)
    (id : prim) (refreshed : json) (i : nat) (s : json) :
  parsed_body w (refresh_request env id) = Fulfilled refreshed →
  result (run env w st (RefreshSummary id)) = Fulfilled () →
  nth_summary st i = Some s →
  has_id id s = true →
  ∃ s', nth_summary (final (run env w st (RefreshSummary id))) i = Some s'
        ∧ (∀ k, field s' k = match field refreshed k with
                             | Some v => Some v
                             | None => field s k
                             end)
        ∧ (∀ k, field refreshed k = None ∨ field refreshed k = field s k →
                field s' k = field s k)
        ∧ (∀ k, is_Some (field refreshed k) →
                field s' k = field refreshed k).
Proof.
  intros Hbody Hdone Hi Hid. revert Hdone.
  rewrite refreshSummary_run, Hbody.
  unfold nth_summary in Hi. unfold array_map.
  destruct (summaries st) as [| | | |l|]; try discriminate.
  destruct (map_outcome (refresh_one id refreshed) l) as [l'|] eqn:Hmap;
    [|discriminate].
  intros _. apply map_outcome_Forall2 in Hmap.
  destruct (Forall2_lookup_l _ _ _ _ _ Hmap Hi) as (s' & Hi' & Hs').
  apply refresh_one_same in Hs'; [|exact Hid]. subst s'.
  exists (spread2 s refreshed). split; [exact Hi'|].
  split; [apply field_spread2|]. split.
  - intros k Hk. rewrite field_spread2.
    destruct Hk as [->| ->]; [reflexivity|].
    by destruct (field s k).
  - intros k [v Hv]. by rewrite field_spread2, Hv.
Qed.

Lemma refreshSummary_merge_witness :
  ∃ s',
    nth_summary
      (final (run Sample.env (Sample.answering Sample.regenerated)
                Sample.with_summaries (RefreshSummary (PNum 1)))) 0
    = Some s'
    ∧ field s' "id" = Some (JNum 1)
    ∧ field s' "filename" = Some (JStr "report.pdf")
    ∧ field s' "summary" = Some (JStr "new")
    ∧ field s' "generation_method" = Some (JStr "keyword-fallback").
Proof.
  destruct (refreshSummary_merge Sample.env
              (Sample.answering Sample.regenerated) Sample.with_summaries
              (PNum 1) Sample.regenerated 0 Sample.report)
    as (s' & Hs' & _ & Hkeep & Htake);
    [vm_compute; reflexivity..|].
  exists s'. split; [exact Hs'|].
  split; [|split; [|split]].
  - apply (Hkeep "id"). left. vm_compute; reflexivity.
  - apply (Hkeep "filename"). left. vm_compute; reflexivity.
  - rewrite (Htake "summary"); [vm_compute; reflexivity|].
    eexists. vm_compute; reflexivity.
  - rewrite (Htake "generation_method"); [vm_compute; reflexivity|].
    eexists. vm_compute; reflexivity.
Defined.

(** C3 as stated fails: a refresh response that carries an id of its
    own replaces the id of the record. *)
Lemma refresh_response_overrides_id :
  ¬ (∀ env w st id i s s',
       nth_summary st i = Some s →
       has_id id s = true →
       result (run env w st (RefreshSummary id)) = Fulfilled () →
       nth_summary (final (run env w st (RefreshSummary id))) i = Some s' →
       field s' "id" = field s "id"
       ∧ field s' "filename" = field s "filename").
Proof.
  intros Hclaim.
  destruct (Hclaim Sample.env (Sample.answering Sample.relabelled)
              Sample.with_summaries (PNum 1) 0%nat Sample.report
              (spread2 Sample.report Sample.relabelled)) as [Hid _];
    [vm_compute; reflexivity..|].
  vm_compute in Hid. discriminate Hid.
Qed.

(* ===================================================================== *)
(** ** The endpoints *)
(* ===================================================================== *)

Lemma loadData_requests env j st :
  requests (loadData env (Sample.answering j) st)
  = [ get_request env "/api/notes"; get_request env "/api/schedule";
      get_request env "/api/summaries" ].
Proof. reflexivity. Qed.

(** C2, as amended: every request of the component goes to one of the
    five documented endpoints or to [/api/refresh-summary/<id>], the
    path of [refreshSummary]; the legacy [uploadPDF] goes to
    [/api/upload-pdf]; each of the five documented endpoints is the
    target of some request of the component, and so is the refresh
    path for every [id]. *)
Theorem frontend_paths (env : Env) (w : world) :
  (∀ st a,
     Forall (λ r, ∃ p, targets env r p
                       ∧ (p ∈ documented_endpoints ∨ refresh_path p))
       (sent env w st a))
  ∧ (∀ dom, Forall (λ r, url r = "/api/upload-pdf")
              (requests (Script.uploadPDF w dom)))
  ∧ Forall (λ p, ∃ w' st a, Exists (λ r, targets env r p) (sent env w' st a))
      documented_endpoints
  ∧ (∀ st id,
       Exists (λ r, targets env r ("/api/refresh-summary/" +:+ to_string id))
         (sent env w st (Handle (RefreshSummary id)))).
Proof.
  split; [|split; [|split]].
  - intros st a. apply component_sends.
    + intros endpoint data Hin. exists endpoint. split; [reflexivity|].
      destruct Hin as [Hin|Hin]; [left|by right].
      apply list_elem_of_In in Hin. apply list_elem_of_In.
      simpl in *. tauto.
    + intros endpoint Hin. exists endpoint. split; [reflexivity|].
      left. apply list_elem_of_In in Hin. apply list_elem_of_In.
      simpl in *. tauto.
    + intros file. exists "/api/upload-pdf". split; [reflexivity|].
      left. apply list_elem_of_In. simpl. tauto.
  - intros dom. apply script_sends. reflexivity.
  - unfold documented_endpoints. repeat apply Forall_cons_2.
    + exists w, (initial true), (Handle (RunCopilotCommand "help")).
      unfold sent. rewrite runCopilotCommand_run.
      destruct (parsed_body w (command_request env "help")) as [j|];
        [destruct (get_prop j "response")|]; by left.
    + exists w, Sample.with_file, (Handle UploadPDF).
      unfold sent. rewrite uploadPDF_run. simpl.
      destruct (parsed_body w (upload_request env Sample.file)); by left.
    + exists (Sample.answering JNull), (initial true), InitialLoad.
      unfold sent. rewrite loadData_requests. by left.
    + exists (Sample.answering JNull), (initial true), InitialLoad.
      unfold sent. rewrite loadData_requests. right. by left.
    + exists (Sample.answering JNull), (initial true), InitialLoad.
      unfold sent. rewrite loadData_requests. right. right. by left.
    + constructor.
  - intros st id. unfold sent. rewrite refreshSummary_requests. by left.
Qed.

(** C2 as stated fails: [refreshSummary] sends its request to
    [/api/refresh-summary/1], which is none of the five documented
    endpoints. *)
Lemma refresh_endpoint_undocumented :
  ¬ (∀ env w st a,
       Forall (λ r, ∃ p, p ∈ documented_endpoints ∧ targets env r p)
         (sent env w st a)).
Proof.
  intros Hclaim.
  specialize (Hclaim Sample.env (Sample.answering Sample.regenerated)
                Sample.with_summaries (Handle (RefreshSummary (PNum 1)))).
  unfold sent in Hclaim. rewrite refreshSummary_requests in Hclaim.
  apply Forall_singleton in Hclaim as (p & Hp & Hurl).
  unfold targets in Hurl. vm_compute in Hurl.
  unfold documented_endpoints in Hp.
  repeat (apply elem_of_cons in Hp as [->|Hp]; [discriminate Hurl|]).
  by apply elem_of_nil in Hp.
Qed.

(* ===================================================================== *)
(** ** The summarisation selector *)
(* ===================================================================== *)

Section Words.
Import Text.

Lemma is_space_lower c : is_space (lower_ascii c) = is_space c.
Proof. by destruct c as [[] [] [] [] [] [] [] []]. Qed.

Lemma is_blank_lowercase s : is_blank (lowercase s) = is_blank s.
Proof.
  induction s as [|c s IH]; simpl; [reflexivity|].
  by rewrite is_space_lower, IH.
Qed.

Lemma append_char_nonempty cur c : cur +:+ String c "" ≠ "".
Proof. by destruct cur. Qed.

(** A text that is not blank has a word. *)
Lemma words_from_nonempty cur s :
  cur ≠ "" ∨ is_blank s = false → words_from cur s ≠ [].
Proof.
  revert cur. induction s as [|c s IH]; intros cur Hcur; simpl.
  - destruct Hcur as [Hcur|Hcur]; [|discriminate].
    by destruct cur.
  - simpl in Hcur. destruct (is_space c); simpl in Hcur.
    + destruct cur; simpl; [|discriminate].
      apply IH. destruct Hcur as [Hcur|Hcur]; [done|by right].
    + apply IH. left. apply append_char_nonempty.
Qed.

(** No word is empty. *)
Lemma words_from_Forall cur s : Forall (λ t, t ≠ "") (words_from cur s).
Proof.
  revert cur. induction s as [|c s IH]; intros cur; simpl.
  - destruct cur; simpl; repeat constructor. discriminate.
  - destruct (is_space c); [|apply IH].
    destruct cur; simpl; [apply IH|].
    constructor; [discriminate|apply IH].
Qed.

End Words.

Section Ranking.
Import Summarizer.

Lemma elem_of_insert_ranked f t l u :
  u ∈ insert_ranked f t l ↔ u = t ∨ u ∈ l.
Proof.
  induction l as [|v l IH]; simpl.
  - rewrite list_elem_of_singleton, elem_of_nil. tauto.
  - destruct (f v <=? f t)%nat.
    + rewrite elem_of_cons. tauto.
    + rewrite !elem_of_cons, IH. tauto.
Qed.

(** Ranking keeps exactly the terms it is given. *)
Lemma elem_of_rank terms u : u ∈ rank terms ↔ u ∈ terms.
Proof.
  unfold rank. rewrite <- (elem_of_remove_dups terms).
  generalize (λ t, frequency t terms). intros f.
  induction (remove_dups terms) as [|v l IH]; simpl; [reflexivity|].
  rewrite elem_of_insert_ranked, elem_of_cons, IH. tauto.
Qed.

Lemma concat_nonempty sep t l : t ≠ "" → String.concat sep (t :: l) ≠ "".
Proof.
  intros Ht. destruct t as [|c t]; [done|].
  simpl. destruct l; discriminate.
Qed.

(** The summary of the most frequent terms of a non-empty list of
    non-empty terms is not empty. *)
Lemma top_summary_nonempty terms :
  terms ≠ [] → Forall (λ t, t ≠ "") terms →
  String.concat ", " (take top_terms (rank terms)) ≠ "".
Proof.
  intros Hterms Hall.
  destruct (rank terms) as [|t l] eqn:Hrank.
  - destruct terms as [|u terms]; [done|].
    assert (u ∈ rank (u :: terms)) as Hu by (apply elem_of_rank; left).
    rewrite Hrank in Hu. by apply elem_of_nil in Hu.
  - unfold top_terms. simpl. apply concat_nonempty.
    rewrite Forall_forall in Hall. apply Hall.
    apply elem_of_rank. rewrite Hrank. left.
Qed.

Lemma keyword_summary_nonempty stopwords text :
  keyword_summary stopwords text ≠ "".
Proof.
  unfold keyword_summary.
  destruct (Text.is_blank text) eqn:Hblank; [discriminate|].
  assert (Htokens : Text.tokenize text ≠ []).
  { apply words_from_nonempty. right. by rewrite is_blank_lowercase. }
  assert (Hall : Forall (λ t, t ≠ "") (Text.tokenize text))
    by apply words_from_Forall.
  destruct (filter (λ t, t ∉ stopwords) (Text.tokenize text))
    as [|t kept] eqn:Hkept.
  - by apply top_summary_nonempty.
  - apply top_summary_nonempty; [done|].
    rewrite <- Hkept. rewrite Forall_forall in Hall |- *.
    intros u Hu. apply list_elem_of_filter in Hu as [_ Hu]. by apply Hall.
Qed.

End Ranking.

(** C6: when the AI path fails (the network is not allowed, or the
    attempt fails by timeout, error or unreachable network), [summarize]
    returns the method [keyword-fallback]; for a non-empty input the
    summary is not empty; and an empty or whitespace-only input yields,
    without any failure, the "no content to summarize" result. *)
Theorem summarize_fallback (ai_summarize : string → option string)
    (stopwords : list string) (text : string) (allow_network : bool) :
  Summarizer.ai_fails ai_summarize text allow_network →
  Summarizer.tag_name
    (Summarizer.method
       (Summarizer.summarize ai_summarize stopwords text allow_network))
  = "keyword-fallback"
  ∧ (text ≠ "" →
     Summarizer.summary
       (Summarizer.summarize ai_summarize stopwords text allow_network)
     ≠ "")
  ∧ (Text.is_blank text = true →
     Summarizer.summarize ai_summarize stopwords text allow_network
     = {| Summarizer.summary := Summarizer.no_content;
          Summarizer.method := Summarizer.KeywordFallback |}).
Proof.
  intros Hfails.
  assert (Hsel :
    Summarizer.summarize ai_summarize stopwords text allow_network
    = {| Summarizer.summary := Summarizer.keyword_summary stopwords text;
         Summarizer.method := Summarizer.KeywordFallback |}).
  { unfold Summarizer.summarize.
    destruct Hfails as [-> | Hai]; [reflexivity|].
    rewrite Hai. by destruct allow_network. }
  rewrite Hsel; simpl. split; [reflexivity|]. split.
  - intros _. apply keyword_summary_nonempty.
  - intros Hblank. unfold Summarizer.keyword_summary. by rewrite Hblank.
Qed.

Lemma summarize_fallback_witness :
  Summarizer.tag_name
    (Summarizer.method
       (Summarizer.summarize (λ _, None) ["the"; "and"]
          "The cat and the dog and the cat" true))
  = "keyword-fallback"
  ∧ Summarizer.summary
      (Summarizer.summarize (λ _, None) ["the"; "and"]
         "The cat and the dog and the cat" true)
    ≠ "".
Proof.
  destruct (summarize_fallback (λ _, None) ["the"; "and"]
              "The cat and the dog and the cat" true)
    as (Htag & Hsummary & _).
  - right. reflexivity.
  - split; [exact Htag|]. apply Hsummary. discriminate.
Defined.

(* ===================================================================== *)
(** ** Further properties of the handlers *)
(* ===================================================================== *)

(** Rewrites the run of a handler into its cases. *)
Ltac handler_cases op :=
  destruct op as [| | |?id|?command];
  [ rewrite createNote_run
  | rewrite createSchedule_run
  | rewrite uploadPDF_run
  | rewrite refreshSummary_run
  | rewrite runCopilotCommand_run ].

(** No handler touches the active tab or the connectivity flag. *)
Lemma run_keeps_tab_online env w st op :
  activeTab (final (run env w st op)) = activeTab st
  ∧ online (final (run env w st op)) = online st.
Proof. handler_cases op; repeat case_match; done. Qed.

(** X1: a handler that rejects (the request fails, the body is not
    JSON, or the answer cannot be used) leaves the whole state as it
    was: the setters are only reached on success. *)
Theorem handler_rejection_keeps_state (env : Env) (w : world)
    (st : AppState) (op : operation) (e : error) :
  result (run env w st op) = Rejected e →
  final (run env w st op) = st.
Proof. handler_cases op; repeat case_match; done. Qed.

Lemma handler_rejection_keeps_state_witness :
  final (run Sample.env Scenario.unreachable Sample.with_draft CreateNote)
  = Sample.with_draft.
Proof.
  apply (handler_rejection_keeps_state Sample.env Scenario.unreachable
           Sample.with_draft CreateNote NetworkError).
  reflexivity.
Defined.

(** X2: a handler sends at most one request, the request is fixed
    before any answer is seen (it is the same in every world with the
    same clock), and [createSchedule], [refreshSummary] and
    [runCopilotCommand], which have no guard, send exactly one in every
    state. *)
Theorem handler_single_request (env : Env) (w : world) (st : AppState)
    (op : operation) :
  (length (requests (run env w st op)) ≤ 1)%nat
  ∧ (∀ w', now_iso w' = now_iso w →
           requests (run env w' st op) = requests (run env w st op))
  ∧ (op ≠ CreateNote → op ≠ UploadPDF →
     length (requests (run env w st op)) = 1%nat).
Proof.
  split; [|split].
  - handler_cases op; repeat case_match; simpl; lia.
  - intros w' Hclock. destruct op as [| | |id|command].
    + rewrite !createNote_run. repeat case_match; done.
    + rewrite !createSchedule_run. unfold schedule_request.
      rewrite Hclock. repeat case_match; done.
    + rewrite !uploadPDF_run. repeat case_match; done.
    + by rewrite !refreshSummary_requests.
    + rewrite !runCopilotCommand_run. repeat case_match; done.
  - intros Hnote Hupload.
    destruct op as [| | |id|command]; [done| |done|..].
    + rewrite createSchedule_run. repeat case_match; done.
    + by rewrite refreshSummary_requests.
    + rewrite runCopilotCommand_run. repeat case_match; done.
Qed.

(** The cells a handler leaves alone. *)
Lemma run_frame env w st op :
  (op ≠ CreateNote →
     noteTitle (final (run env w st op)) = noteTitle st
     ∧ noteContent (final (run env w st op)) = noteContent st
     ∧ notes (final (run env w st op)) = notes st)
  ∧ (op ≠ CreateSchedule →
     schedules (final (run env w st op)) = schedules st)
  ∧ (op ≠ UploadPDF → (∀ id, op ≠ RefreshSummary id) →
     summaries (final (run env w st op)) = summaries st)
  ∧ (op ≠ UploadPDF →
     selectedFile (final (run env w st op)) = selectedFile st)
  ∧ ((∀ command, op ≠ RunCopilotCommand command) →
     copilotResponse (final (run env w st op)) = copilotResponse st).
Proof.
  repeat split; intros; handler_cases op;
    repeat case_match; try done; naive_solver.
Qed.

(** X3: each handler writes its own cells only: none changes the active
    tab or the connectivity flag; only [createNote] changes the note
    form, only [createSchedule] the schedules, only [uploadPDF] and
    [refreshSummary] the summaries, only [uploadPDF] the selected file,
    only [runCopilotCommand] the Copilot response. *)
Theorem handler_frame (env : Env) (w : world) (st : AppState)
    (op : operation) :
  let st' := final (run env w st op) in
  activeTab st' = activeTab st
  ∧ online st' = online st
  ∧ (op ≠ CreateNote →
     noteTitle st' = noteTitle st ∧ noteContent st' = noteContent st)
  ∧ (op ≠ CreateSchedule → schedules st' = schedules st)
  ∧ (op ≠ UploadPDF → (∀ id, op ≠ RefreshSummary id) →
     summaries st' = summaries st)
  ∧ (op ≠ UploadPDF → selectedFile st' = selectedFile st)
  ∧ ((∀ command, op ≠ RunCopilotCommand command) →
     copilotResponse st' = copilotResponse st).
Proof.
  intros st'. subst st'.
  destruct (run_keeps_tab_online env w st op) as [Htab Honline].
  destruct (run_frame env w st op)
    as (Hnote & Hschedules & Hsummaries & Hfile & Hcopilot).
  split; [exact Htab|]. split; [exact Honline|].
  split; [|by repeat split].
  intros Hop. by destruct (Hnote Hop) as (? & ? & _).
Qed.

(** The parsed body of an answer does not depend on its status. *)
Lemma same_bodies_parsed w w' r :
  same_bodies w w' → parsed_body w r = parsed_body w' r.
Proof.
  intros [_ Hsame]. specialize (Hsame r). unfold parsed_body.
  destruct (answer w r) as [res|], (answer w' r) as [res'|];
    simpl in Hsame; try done.
  injection Hsame as ->. done.
Qed.

Lemma loadData_run env w st :
  loadData env w st =
  match parsed_body w (get_request env "/api/notes") with
  | Fulfilled notesData =>
      match parsed_body w (get_request env "/api/schedule") with
      | Fulfilled schedulesData =>
          match parsed_body w (get_request env "/api/summaries") with
          | Fulfilled summariesData =>
              ([ get_request env "/api/notes";
                 get_request env "/api/schedule";
                 get_request env "/api/summaries" ],
               with_Summaries summariesData
                 (with_Schedules schedulesData (with_Notes notesData st)),
               Fulfilled ())
          | Rejected _ =>
              ([ get_request env "/api/notes";
                 get_request env "/api/schedule";
                 get_request env "/api/summaries" ],
               with_Schedules schedulesData (with_Notes notesData st),
               Fulfilled ())
          end
      | Rejected _ =>
          ([ get_request env "/api/notes"; get_request env "/api/schedule" ],
           with_Notes notesData st, Fulfilled ())
      end
  | Rejected _ => ([ get_request env "/api/notes" ], st, Fulfilled ())
  end.
Proof.
  unfold loadData, try_catch, bind, setNotes, setSchedules, setSummaries,
    modify.
  rewrite getJSON_run.
  destruct (parsed_body w (get_request env "/api/notes")); [|reflexivity].
  rewrite getJSON_run.
  destruct (parsed_body w (get_request env "/api/schedule")); [|reflexivity].
  rewrite getJSON_run.
  destruct (parsed_body w (get_request env "/api/summaries")); reflexivity.
Qed.

(** X4: the HTTP status of an answer is never looked at: in two worlds
    whose answers carry the same bodies every handler and the initial
    load send the same requests and end in the same state with the same
    outcome, so an error answer with a JSON body is stored like a
    success. *)
Theorem status_is_ignored (env : Env) (w w' : world) (st : AppState) :
  same_bodies w w' →
  (∀ op, run env w st op = run env w' st op)
  ∧ loadData env w st = loadData env w' st.
Proof.
  intros Hsame. split.
  - intros op. destruct op as [| | |id|command].
    + rewrite !createNote_run. by rewrite (same_bodies_parsed w w').
    + rewrite !createSchedule_run. unfold schedule_request.
      destruct Hsame as [Hclock Hsame]. rewrite <- Hclock.
      by rewrite (same_bodies_parsed w w').
    + rewrite !uploadPDF_run. destruct (selectedFile st); [done..|].
      by rewrite (same_bodies_parsed w w').
    + rewrite !refreshSummary_run. by rewrite (same_bodies_parsed w w').
    + rewrite !runCopilotCommand_run.
      by rewrite (same_bodies_parsed w w').
  - rewrite !loadData_run. by rewrite !(same_bodies_parsed w w').
Qed.

Lemma status_is_ignored_witness :
  run Sample.env (Scenario.answering_with 500 Sample.note)
    Sample.with_draft CreateNote
  = run Sample.env (Scenario.answering_with 200 Sample.note)
      Sample.with_draft CreateNote.
Proof.
  apply (status_is_ignored Sample.env
           (Scenario.answering_with 500 Sample.note)
           (Scenario.answering_with 200 Sample.note) Sample.with_draft).
  split; reflexivity.
Defined.

(* ===================================================================== *)
(** ** The initial load *)
(* ===================================================================== *)

(** X5: [loadData] never rejects and stops at the first request that
    fails, keeping what it has loaded so far: a failure of the notes
    leaves the state as it was and asks nothing more; a failure of the
    schedules leaves the notes loaded; a failure of the summaries leaves
    notes and schedules loaded; otherwise the three cells are exactly the
    three answers, whatever they held before. *)
Theorem loadData_partial (env : Env) (w : world) (st : AppState) :
  result (loadData env w st) = Fulfilled ()
  ∧ (∀ e, parsed_body w (get_request env "/api/notes") = Rejected e →
       loadData env w st
       = ([ get_request env "/api/notes" ], st, Fulfilled ()))
  ∧ (∀ notesData e,
       parsed_body w (get_request env "/api/notes") = Fulfilled notesData →
       parsed_body w (get_request env "/api/schedule") = Rejected e →
       loadData env w st
       = ([ get_request env "/api/notes"; get_request env "/api/schedule" ],
          with_Notes notesData st, Fulfilled ()))
  ∧ (∀ notesData schedulesData e,
       parsed_body w (get_request env "/api/notes") = Fulfilled notesData →
       parsed_body w (get_request env "/api/schedule")
       = Fulfilled schedulesData →
       parsed_body w (get_request env "/api/summaries") = Rejected e →
       loadData env w st
       = ([ get_request env "/api/notes"; get_request env "/api/schedule";
            get_request env "/api/summaries" ],
          with_Schedules schedulesData (with_Notes notesData st),
          Fulfilled ()))
  ∧ (∀ notesData schedulesData summariesData,
       parsed_body w (get_request env "/api/notes") = Fulfilled notesData →
       parsed_body w (get_request env "/api/schedule")
       = Fulfilled schedulesData →
       parsed_body w (get_request env "/api/summaries")
       = Fulfilled summariesData →
       loadData env w st
       = ([ get_request env "/api/notes"; get_request env "/api/schedule";
            get_request env "/api/summaries" ],
          with_Summaries summariesData
            (with_Schedules schedulesData (with_Notes notesData st)),
          Fulfilled ())).
Proof.
  rewrite loadData_run. repeat split.
  - repeat case_match; done.
  - by intros e ->.
  - by intros notesData e -> ->.
  - by intros notesData schedulesData e -> -> ->.
  - by intros notesData schedulesData summariesData -> -> ->.
Qed.

(** X6: loading again from an unchanged backend changes nothing: a
    second [loadData] in the same world sends the same requests and ends
    in the state the first one ended in. *)
Theorem loadData_idempotent (env : Env) (w : world) (st : AppState) :
  loadData env w (final (loadData env w st))
  = (requests (loadData env w st), final (loadData env w st), Fulfilled ()).
Proof.
  rewrite !loadData_run.
  destruct (parsed_body w (get_request env "/api/notes")); [|done].
  destruct (parsed_body w (get_request env "/api/schedule")); [|done].
  destruct (parsed_body w (get_request env "/api/summaries")); done.
Qed.

(* ===================================================================== *)
(** ** Repeating an operation *)
(* ===================================================================== *)

Lemma spread2_idempotent s r : spread2 (spread2 s r) r = spread2 s r.
Proof.
  unfold spread2; simpl. f_equal.
  rewrite (assoc_L (∪)). by rewrite (idemp_L (∪)).
Qed.

(** Refreshing a refreshed entry changes nothing more. *)
Lemma refresh_one_idempotent id refreshed s s' :
  refresh_one id refreshed s = Fulfilled s' →
  refresh_one id refreshed s' = Fulfilled s'.
Proof.
  unfold refresh_one.
  destruct (get_prop s "id") as [v|] eqn:Hv; [|discriminate].
  destruct (strict_eq v id) eqn:Hid; intros Hs'; injection Hs' as <-.
  - simpl. case_match; [|reflexivity].
    by rewrite spread2_idempotent.
  - by rewrite Hv, Hid.
Qed.

Lemma map_outcome_idempotent id refreshed l l' :
  map_outcome (refresh_one id refreshed) l = Fulfilled l' →
  map_outcome (refresh_one id refreshed) l' = Fulfilled l'.
Proof.
  revert l'. induction l as [|s l IH]; intros l' Hmap; simpl in Hmap.
  - by injection Hmap as <-.
  - destruct (refresh_one id refreshed s) as [s'|] eqn:Hs; [|discriminate].
    destruct (map_outcome (refresh_one id refreshed) l) as [l0|];
      [|discriminate].
    injection Hmap as <-. simpl.
    by rewrite (refresh_one_idempotent _ _ _ _ Hs), (IH l0).
Qed.

(** X7: refreshing twice is refreshing once: a second
    [refreshSummary(id)] that gets the same answer sends the same
    request again and leaves the state the first one produced, with the
    same outcome. *)
Theorem refreshSummary_idempotent (env : Env) (w : world) (st : AppState)
    (id : prim) :
  run env w (final (run env w st (RefreshSummary id))) (RefreshSummary id)
  = ([refresh_request env id],
     final (run env w st (RefreshSummary id)),
     result (run env w st (RefreshSummary id))).
Proof.
  rewrite !refreshSummary_run.
  destruct (parsed_body w (refresh_request env id)) as [refreshed|];
    [|done].
  destruct (array_map (refresh_one id refreshed) (summaries st))
    as [arr|] eqn:Harr; unfold final, result; cbn [fst snd];
    [|by rewrite Harr].
  unfold array_map in Harr. destruct (summaries st); try discriminate.
  destruct (map_outcome (refresh_one id refreshed) l) as [l'|] eqn:Hmap;
    [|discriminate].
  injection Harr as <-. simpl.
  by rewrite (map_outcome_idempotent _ _ _ _ Hmap).
Qed.

(** X8: once [createNote] or [uploadPDF] has completed, an immediate
    second call does nothing: the form is empty, or no file is selected,
    so no second request is sent and the state stays; a note or a file
    is not submitted twice. *)
Theorem resubmit_does_nothing (env : Env) (w w' : world) (st : AppState)
    (op : operation) :
  op = CreateNote ∨ op = UploadPDF →
  result (run env w st op) = Fulfilled () →
  run env w' (final (run env w st op)) op
  = ([], final (run env w st op), Fulfilled ()).
Proof.
  intros [-> | ->].
  - rewrite !createNote_run.
    destruct (falsy_string (noteTitle st) || falsy_string (noteContent st))
      eqn:Hguard; unfold final, result; cbn [fst snd].
    + by rewrite Hguard.
    + repeat case_match; done.
  - rewrite !uploadPDF_run.
    destruct (selectedFile st) eqn:Hsel; unfold final, result;
      cbn [fst snd]; try by rewrite Hsel.
    repeat case_match; done.
Qed.

Lemma resubmit_does_nothing_witness :
  run Sample.env (Sample.answering Sample.minutes)
    (final (run Sample.env (Sample.answering Sample.note)
              Sample.with_draft CreateNote))
    CreateNote
  = ([],
     final (run Sample.env (Sample.answering Sample.note)
              Sample.with_draft CreateNote),
     Fulfilled ()).
Proof.
  apply (resubmit_does_nothing Sample.env (Sample.answering Sample.note)
           (Sample.answering Sample.minutes) Sample.with_draft CreateNote).
  - left. reflexivity.
  - reflexivity.
Defined.

(** X9: no handler removes an entry of the summaries or a property of
    an entry: whatever [k] an entry has before, the entry at the same
    position still has after, be the entry untouched, merged with a
    refresh response or followed by an uploaded one. *)
Theorem summaries_keep_properties (env : Env) (w : world) (st : AppState)
    (op : operation) (i : nat) (s : json) (k : string) :
  nth_summary st i = Some s →
  is_Some (field s k) →
  ∃ s', nth_summary (final (run env w st op)) i = Some s'
        ∧ is_Some (field s' k).
Proof.
  intros Hi Hk.
  assert (Hsame : summaries (final (run env w st op)) = summaries st →
                  ∃ s', nth_summary (final (run env w st op)) i = Some s'
                        ∧ is_Some (field s' k)).
  { intros Heq. exists s. unfold nth_summary in *. by rewrite Heq. }
  unfold nth_summary in Hi.
  destruct (summaries st) as [| | | |l|] eqn:Hsum; try discriminate.
  destruct op as [| | |id|command].
  - apply Hsame. rewrite createNote_run. repeat case_match; done.
  - apply Hsame. rewrite createSchedule_run. repeat case_match; done.
  - rewrite uploadPDF_run in *.
    destruct (selectedFile st); [by apply Hsame..|].
    destruct (parsed_body w (upload_request env f)) as [uploaded|];
      [|by apply Hsame].
    rewrite Hsum; simpl. exists s. split; [|done].
    unfold nth_summary; simpl. by apply lookup_app_l_Some.
  - rewrite refreshSummary_run in *.
    destruct (parsed_body w (refresh_request env id)) as [refreshed|];
      [|by apply Hsame].
    rewrite Hsum in *; simpl in *.
    destruct (map_outcome (refresh_one id refreshed) l) as [l'|] eqn:Hmap;
      [|by apply Hsame].
    apply map_outcome_Forall2 in Hmap.
    destruct (Forall2_lookup_l _ _ _ _ _ Hmap Hi) as (s' & Hi' & Hs').
    exists s'. split; [exact Hi'|].
    destruct (has_id id s) eqn:Hid.
    + rewrite (refresh_one_same _ _ _ _ Hs' Hid), field_spread2.
      by destruct (field refreshed k).
    + by rewrite (refresh_one_other _ _ _ _ Hs' Hid).
  - apply Hsame. rewrite runCopilotCommand_run. repeat case_match; done.
Qed.

Lemma summaries_keep_properties_witness :
  ∃ s', nth_summary
          (final (run Sample.env (Sample.answering Sample.relabelled)
                    Sample.with_summaries (RefreshSummary (PNum 1)))) 0
        = Some s'
        ∧ is_Some (field s' "filename").
Proof.
  apply (summaries_keep_properties Sample.env
           (Sample.answering Sample.relabelled) Sample.with_summaries
           (RefreshSummary (PNum 1)) 0 Sample.report "filename").
  - reflexivity.
  - eexists. vm_compute. reflexivity.
Defined.

(* ===================================================================== *)
(** ** The page and its events *)
(* ===================================================================== *)

(** A handled event in terms of the handler it runs. *)
Lemma step_cases env w st ev rs st' :
  Ui.step env w st ev = Some (rs, st') →
  (ev = Ui.WindowOnline ∧ rs = [] ∧ st' = Ui.with_Online true st)
  ∨ (ev = Ui.WindowOffline ∧ rs = [] ∧ st' = Ui.with_Online false st)
  ∨ (ev = Ui.Mount ∧ rs = requests (loadData env w st)
     ∧ st' = final (loadData env w st))
  ∨ (∃ tab, ev = Ui.ClickTab tab ∧ tab ∈ Ui.tabs ∧ rs = []
            ∧ st' = Ui.with_ActiveTab tab st)
  ∨ (∃ files, ev = Ui.ChangeFile files ∧ rs = []
              ∧ st' = with_SelectedFile
                        (match head files with
                         | Some file => Selected file
                         | None => UndefinedFile
                         end) st)
  ∨ (∃ value, ev = Ui.ChangeTitle value ∧ rs = []
              ∧ st' = with_NoteTitle value st)
  ∨ (∃ value, ev = Ui.ChangeContent value ∧ rs = []
              ∧ st' = with_NoteContent value st)
  ∨ (∃ key value, ev = Ui.KeyDown key value ∧ key ≠ "Enter" ∧ rs = []
                  ∧ st' = st)
  ∨ (∃ op, rs = requests (run env w st op) ∧ st' = final (run env w st op)
           ∧ match ev with
             | Ui.ClickUpload => op = UploadPDF
             | Ui.ClickAddNote => op = CreateNote
             | Ui.ClickCreateSchedule => op = CreateSchedule
             | Ui.ClickRefresh i =>
                 ∃ s v p, nth_summary st i = Some s
                          ∧ get_prop s "id" = Fulfilled v
                          ∧ Ui.as_prim v = Some p
                          ∧ op = RefreshSummary p
             | Ui.KeyDown key value =>
                 key = "Enter" ∧ op = RunCopilotCommand value
             | _ => False
             end).
Proof.
  unfold Ui.step, Ui.on_event. intros Hstep.
  destruct ev as [| | |tab|files| |value|value| | |i|key value];
    repeat case_match; simplify_eq/=.
  - by left.
  - right. by left.
  - do 2 right. by left.
  - do 3 right. left. exists tab. by rewrite bool_decide_eq_true in *.
  - do 4 right. left. by exists files.
  - do 8 right. by exists UploadPDF.
  - do 5 right. left. by exists value.
  - do 6 right. left. by exists value.
  - do 8 right. by exists CreateNote.
  - do 8 right. by exists CreateSchedule.
  - do 8 right. unfold Ui.onRefreshClick in Hstep.
    unfold nth_summary. repeat case_match; simplify_eq/=.
    destruct (Ui.as_prim _) as [p|] eqn:Hp; simplify_eq/=.
    exists (RefreshSummary p). repeat split. by eexists _, _, p.
  - unfold Ui.onKeyDown.
    destruct (bool_decide (key = "Enter")) eqn:Hkey;
      [apply bool_decide_eq_true in Hkey|apply bool_decide_eq_false in Hkey].
    + do 8 right. exists (RunCopilotCommand value).
      repeat split; [reflexivity..|exact Hkey].
    + do 7 right. left. exists key, value.
      repeat split; [exact Hkey|reflexivity..].
Qed.

(** The active tab and the connectivity flag after a handled event. *)
Lemma step_tab_online env w st ev rs st' :
  Ui.step env w st ev = Some (rs, st') →
  (activeTab st' = activeTab st
   ∨ ∃ tab, ev = Ui.ClickTab tab ∧ tab ∈ Ui.tabs ∧ activeTab st' = tab)
  ∧ online st' = match ev with
                 | Ui.WindowOnline => true
                 | Ui.WindowOffline => false
                 | _ => online st
                 end.
Proof.
  intros Hstep. apply step_cases in Hstep.
  destruct Hstep as
    [(-> & _ & ->)|[(-> & _ & ->)|[(-> & _ & ->)|[(tab & -> & Htab & _ & ->)|
     [(files & -> & _ & ->)|[(value & -> & _ & ->)|[(value & -> & _ & ->)|
     [(key & value & -> & _ & _ & ->)|(op & _ & -> & Hop)]]]]]]]];
    try (split; [by left|done]).
  - rewrite loadData_run. split; [left|]; repeat case_match; done.
  - split; [right; by exists tab|done].
  - destruct (run_keeps_tab_online env w st op) as [-> ->].
    split; [by left|]. by destruct ev.
Qed.

Lemma exec_activeTab env st trace st' :
  Ui.exec env st trace = Some st' →
  activeTab st ∈ Ui.tabs → activeTab st' ∈ Ui.tabs.
Proof.
  revert st. induction trace as [|[w ev] trace IH]; intros st Hexec Htab;
    simpl in Hexec.
  - by injection Hexec as <-.
  - destruct (Ui.step env w st ev) as [[rs st1]|] eqn:Hstep; [|done].
    apply (IH st1 Hexec).
    destruct (step_tab_online _ _ _ _ _ _ Hstep)
      as [[-> | (tab & _ & Hin & ->)] _]; done.
Qed.

(** X10: whatever happens to the page after its first render, the
    active tab is one of the five tab names, so exactly one of the five
    section guards holds in the state, the one of the active tab: the
    state is never on a tab without a section. *)
Theorem active_tab_is_a_tab (env : Env) (navigator_onLine : bool)
    (trace : list (world * Ui.event)) (st : AppState) :
  Ui.exec env (initial navigator_onLine) trace = Some st →
  activeTab st ∈ Ui.tabs
  ∧ Ui.sections st = [activeTab st].
Proof.
  intros Hexec.
  assert (Htab : activeTab st ∈ Ui.tabs).
  { apply (exec_activeTab _ _ _ _ Hexec). simpl. left. }
  split; [exact Htab|].
  unfold Ui.sections. unfold Ui.tabs in Htab.
  repeat (apply elem_of_cons in Htab as [-> | Htab]; [by vm_compute|]).
  by apply elem_of_nil in Htab.
Qed.

Lemma active_tab_is_a_tab_witness :
  ∃ st, Ui.exec Sample.env (initial true) Scenario.visit = Some st
        ∧ activeTab st ∈ Ui.tabs
        ∧ Ui.sections st = ["notes"].
Proof.
  eexists. split; [vm_compute; reflexivity|].
  apply (active_tab_is_a_tab Sample.env true Scenario.visit).
  vm_compute. reflexivity.
Defined.

(** X11: the connectivity flag follows the window and nothing else: after
    any sequence of events it is what the last [online] or [offline]
    event reported, and without such an event what it was; no handler
    and no failed request changes it. *)
Theorem online_follows_window (env : Env) (st : AppState)
    (trace : list (world * Ui.event)) (st' : AppState) :
  Ui.exec env st trace = Some st' →
  online st' = online_after (online st) trace.
Proof.
  revert st. induction trace as [|[w ev] trace IH]; intros st Hexec;
    simpl in Hexec.
  - by injection Hexec as <-.
  - destruct (Ui.step env w st ev) as [[rs st1]|] eqn:Hstep; [|done].
    rewrite (IH st1 Hexec). unfold online_after; simpl.
    destruct (step_tab_online _ _ _ _ _ _ Hstep) as [_ ->]. done.
Qed.

Lemma online_follows_window_witness :
  ∃ st, Ui.exec Sample.env (initial true) Scenario.visit = Some st
        ∧ online st = false.
Proof.
  eexists. split; [vm_compute; reflexivity|].
  apply (online_follows_window Sample.env (initial true) Scenario.visit).
  vm_compute. reflexivity.
Defined.

(** X13: editing never touches the network or the loaded data: an
    [online] or [offline] event, a tab click, an edit of the file, title
    or content field and a key other than [Enter] in the Copilot input
    send no request and leave the notes, the schedules, the summaries
    and the Copilot response as they are. *)
Theorem edits_are_local (env : Env) (w : world) (st : AppState)
    (ev : Ui.event) (rs : list request) (st' : AppState) :
  is_edit ev = true →
  Ui.step env w st ev = Some (rs, st') →
  rs = []
  ∧ notes st' = notes st
  ∧ schedules st' = schedules st
  ∧ summaries st' = summaries st
  ∧ copilotResponse st' = copilotResponse st.
Proof.
  intros Hedit Hstep. apply step_cases in Hstep.
  destruct Hstep as
    [(-> & -> & ->)|[(-> & -> & ->)|[(-> & _ & _)|[(tab & -> & _ & -> & ->)|
     [(files & -> & -> & ->)|[(value & -> & -> & ->)|[(value & -> & -> & ->)|
     [(key & value & -> & _ & -> & ->)|(op & _ & _ & Hop)]]]]]]]];
    try done.
  destruct ev; try done.
  destruct Hop as [-> _]. done.
Qed.

Lemma edits_are_local_witness :
  ∃ st', Ui.step Sample.env Scenario.unreachable Sample.with_summaries
           (Ui.ChangeFile [Sample.file]) = Some ([], st')
         ∧ summaries st' = summaries Sample.with_summaries.
Proof.
  eexists. split; [vm_compute; reflexivity|].
  eapply (edits_are_local Sample.env Scenario.unreachable
            Sample.with_summaries (Ui.ChangeFile [Sample.file]));
    [reflexivity|vm_compute; reflexivity].
Defined.

(** A request fails with a network error or a syntax error only. *)
Lemma parsed_body_error w r e :
  parsed_body w r = Rejected e → e = NetworkError ∨ e = SyntaxError.
Proof.
  unfold parsed_body. repeat case_match; intros [= <-]; auto.
Qed.

Lemma step_arrays env w st ev rs st' :
  (ev = Ui.Mount → answers_arrays env w) →
  lists_are_arrays st →
  Ui.step env w st ev = Some (rs, st') →
  lists_are_arrays st'.
Proof.
  intros Hw (Hnotes & Hschedules & Hsummaries) Hstep.
  apply step_cases in Hstep.
  destruct Hstep as
    [(-> & _ & ->)|[(-> & _ & ->)|[(-> & _ & ->)|[(tab & -> & _ & _ & ->)|
     [(files & -> & _ & ->)|[(value & -> & _ & ->)|[(value & -> & _ & ->)|
     [(key & value & -> & _ & _ & ->)|(op & _ & -> & _)]]]]]]]];
    try done.
  - specialize (Hw eq_refl). rewrite loadData_run.
    assert (Hin : ∀ endpoint,
      endpoint ∈ ["/api/notes"; "/api/schedule"; "/api/summaries"] →
      ∀ j, parsed_body w (get_request env endpoint) = Fulfilled j →
           is_array j).
    { intros endpoint Hin j. by apply Hw. }
    pose proof (Hin "/api/notes" ltac:(set_solver)) as H1.
    pose proof (Hin "/api/schedule" ltac:(set_solver)) as H2.
    pose proof (Hin "/api/summaries" ltac:(set_solver)) as H3.
    destruct (parsed_body w (get_request env "/api/notes")) as [j1|];
      [|done].
    destruct (parsed_body w (get_request env "/api/schedule")) as [j2|];
      [|split; [by apply H1|done]].
    destruct (parsed_body w (get_request env "/api/summaries")) as [j3|].
    + repeat split; simpl; [by apply H1|by apply H2|by apply H3].
    + repeat split; simpl; [by apply H1|by apply H2|done].
  - destruct Hnotes as [ln Hn], Hschedules as [ls Hs],
      Hsummaries as [lm Hm].
    unfold lists_are_arrays.
    handler_cases op; rewrite ?Hn, ?Hs, ?Hm; simpl;
      repeat case_match; simplify_eq/=; rewrite ?Hn, ?Hs, ?Hm;
      repeat split; try by eexists.
    all: unfold array_map in *; rewrite ?Hm in *;
      repeat case_match; simplify_eq/=; by eexists.
Qed.

(** X12: as long as the backend answers the initial load with arrays,
    the notes, the schedules and the summaries stay arrays whatever the
    user does; then [createNote], [createSchedule] and [uploadPDF] never
    fail on the lists themselves: they reject only when their request
    fails or its body is not JSON. *)
Theorem lists_stay_arrays (env : Env) (st : AppState)
    (trace : list (world * Ui.event)) (st' : AppState) :
  lists_are_arrays st →
  Forall (λ we, we.2 = Ui.Mount → answers_arrays env we.1) trace →
  Ui.exec env st trace = Some st' →
  lists_are_arrays st'
  ∧ ∀ w op e,
      op = CreateNote ∨ op = CreateSchedule ∨ op = UploadPDF →
      result (run env w st' op) = Rejected e →
      e = NetworkError ∨ e = SyntaxError.
Proof.
  intros Hst Htrace Hexec.
  assert (Harr : lists_are_arrays st').
  { revert st Hst Hexec.
    induction Htrace as [|[w ev] trace Hw _ IH]; intros st Hst Hexec;
      simpl in Hexec.
    - by injection Hexec as <-.
    - destruct (Ui.step env w st ev) as [[rs st1]|] eqn:Hstep; [|done].
      apply (IH st1); [|done]. by eapply step_arrays. }
  split; [exact Harr|].
  destruct Harr as ([ln Hn] & [ls Hs] & [lm Hm]).
  intros w op e [-> | [-> | ->]].
  - rewrite createNote_run, Hn; simpl.
    destruct (falsy_string (noteTitle st') || falsy_string (noteContent st'));
      [done|].
    destruct (parsed_body w (note_request env st')) eqn:Hbody; [done|].
    intros [= <-]. by eapply parsed_body_error.
  - rewrite createSchedule_run, Hs; simpl.
    destruct (parsed_body w (schedule_request env w)) eqn:Hbody; [done|].
    intros [= <-]. by eapply parsed_body_error.
  - rewrite uploadPDF_run, Hm; simpl.
    destruct (selectedFile st'); [done..|].
    destruct (parsed_body w (upload_request env f)) eqn:Hbody; [done|].
    intros [= <-]. by eapply parsed_body_error.
Qed.

Lemma lists_stay_arrays_witness :
  ∃ st, Ui.exec Sample.env (initial true) Scenario.visit = Some st
        ∧ lists_are_arrays st.
Proof.
  eexists. split; [vm_compute; reflexivity|].
  eapply (lists_stay_arrays Sample.env (initial true) Scenario.visit).
  - repeat split; by eexists.
  - unfold Scenario.visit.
    repeat (apply Forall_cons_2; [try (intros [=])|]);
      [|apply Forall_nil_2].
    intros endpoint j _ [= <-]. by eexists.
  - vm_compute. reflexivity.
Defined.

Lemma as_prim_strict_eq v p : Ui.as_prim v = Some p → strict_eq v p = true.
Proof.
  destruct v as [[| | | | |]|]; intros [= <-]; simpl;
    by rewrite ?bool_decide_eq_true.
Qed.

Lemma map_outcome_total id refreshed l :
  Forall (λ s, s ≠ JNull) l →
  ∃ l', map_outcome (refresh_one id refreshed) l = Fulfilled l'.
Proof.
  induction 1 as [|s l Hs _ [l' IH]]; simpl; [by eexists|].
  rewrite IH. unfold refresh_one.
  destruct s; try done; by eexists.
Qed.

(** X17: the [Refresh] button of an entry refreshes that entry: on the
    summaries tab, when no entry is [null] and the backend answers with
    JSON, a click on the button of the entry [i] sends the refresh
    request for the id of that entry and replaces the entry by its
    merge with the answer. *)
Theorem refresh_click_merges_entry (env : Env) (w : world) (st : AppState)
    (l : list json) (i : nat) (s : json) (v : option json) (p : prim)
    (refreshed : json) :
  activeTab st = "summaries" →
  summaries st = JArr l →
  Forall (λ s, s ≠ JNull) l →
  l !! i = Some s →
  get_prop s "id" = Fulfilled v →
  Ui.as_prim v = Some p →
  parsed_body w (refresh_request env p) = Fulfilled refreshed →
  ∃ st', Ui.step env w st (Ui.ClickRefresh i)
         = Some ([refresh_request env p], st')
         ∧ nth_summary st' i = Some (spread2 s refreshed).
Proof.
  intros Htab Hsum Hnull Hi Hv Hp Hbody.
  exists (final (run env w st (RefreshSummary p))). split.
  - unfold Ui.step, Ui.on_event, Ui.sections, Ui.onRefreshClick.
    rewrite Htab, Hsum, Hi, Hv, Hp. simpl.
    change (refreshSummary env st p w st)
      with (run env w st (RefreshSummary p)).
    by rewrite refreshSummary_requests.
  - rewrite refreshSummary_run, Hbody, Hsum. simpl.
    destruct (map_outcome_total p refreshed l Hnull) as [l' Hmap].
    rewrite Hmap. unfold nth_summary; simpl.
    apply map_outcome_Forall2 in Hmap.
    destruct (Forall2_lookup_l _ _ _ _ _ Hmap Hi) as (s' & Hi' & Hs').
    rewrite Hi'. f_equal. apply (refresh_one_same p); [done|].
    unfold has_id. rewrite Hv. by apply as_prim_strict_eq.
Qed.

Lemma refresh_click_merges_entry_witness :
  ∃ st', Ui.step Sample.env (Sample.answering Sample.regenerated)
           Scenario.on_summaries_tab (Ui.ClickRefresh 1)
         = Some ([refresh_request Sample.env (PNum 7)], st')
         ∧ nth_summary st' 1
           = Some (spread2 Sample.minutes Sample.regenerated).
Proof.
  apply (refresh_click_merges_entry Sample.env
           (Sample.answering Sample.regenerated) Scenario.on_summaries_tab
           [Sample.report; Sample.minutes] 1 Sample.minutes
           (Some (JNum 7)) (PNum 7) Sample.regenerated);
    try (vm_compute; reflexivity).
  repeat constructor; discriminate.
Defined.

(* ===================================================================== *)
(** ** The requests on the wire *)
(* ===================================================================== *)

(** X16: body and headers agree on every request of the component and
    of the legacy uploader: the [Content-Type] header is there exactly
    when the body is JSON (never with a form, whose boundary the browser
    must set), and exactly the [GET] requests have no body. *)
Theorem requests_declare_body (env : Env) (w : world) :
  (∀ st a, Forall declares_body (sent env w st a))
  ∧ (∀ dom, Forall declares_body (requests (Script.uploadPDF w dom))).
Proof.
  split.
  - intros st a. apply component_sends.
    + intros endpoint data _. split; split; try done.
      * intros _. by exists data.
      * intros _. unfold has_header, header_names; simpl.
        apply list_elem_of_In; simpl. tauto.
    + intros endpoint _. split; split; try done.
      * unfold has_header, header_names; simpl.
        intros Hin. apply list_elem_of_singleton in Hin. discriminate.
      * by intros [data Hdata].
    + intros file. split; split; try done.
      * unfold has_header, header_names; simpl.
        intros Hin. apply list_elem_of_singleton in Hin. discriminate.
      * by intros [data Hdata].
  - intros dom. apply script_sends. intros fd. split; split; try done.
    + unfold has_header, header_names; simpl.
      intros Hin. apply list_elem_of_singleton in Hin. discriminate.
    + by intros [data Hdata].
Qed.

(* ===================================================================== *)
(** ** The legacy uploader *)
(* ===================================================================== *)

Lemma script_run w dom :
  Script.uploadPDF w dom =
  match Script.pdfInput dom with
  | None => ([], dom, Rejected TypeError)
  | Some files =>
      match parsed_body w (legacy_request files) with
      | Fulfilled data =>
          match Script.output dom with
          | None => ([legacy_request files], dom, Rejected TypeError)
          | Some _ =>
              match get_prop data "summary" with
              | Fulfilled summary =>
                  ([legacy_request files],
                   {| Script.pdfInput := Script.pdfInput dom;
                      Script.output := Some summary |},
                   Fulfilled ())
              | Rejected e => ([legacy_request files], dom, Rejected e)
              end
          end
      | Rejected e => ([legacy_request files], dom, Rejected e)
      end
  end.
Proof.
  destruct dom as [[files|] out]; [|reflexivity].
  unfold Script.uploadPDF, bind, get; simpl.
  fold (legacy_request files).
  unfold fetch, res_json, parsed_body.
  destruct (answer w (legacy_request files)) as [res|]; [|reflexivity].
  destruct (parsed res) as [data|]; [|reflexivity]. simpl.
  destruct out; [|reflexivity].
  unfold lift. destruct (get_prop data "summary"); reflexivity.
Qed.

(** X14: the legacy [uploadPDF] has no guard on the chosen file: when
    the page has no [#pdfInput] it throws before any request, otherwise
    it always sends one upload request, and with no file chosen the
    form field [file] of that request is the text [undefined]. *)
Theorem legacy_upload_has_no_guard (w : world) (dom : Script.Dom) :
  (Script.pdfInput dom = None →
     Script.uploadPDF w dom = ([], dom, Rejected TypeError))
  ∧ (∀ files, Script.pdfInput dom = Some files →
       requests (Script.uploadPDF w dom) = [legacy_request files])
  ∧ (Script.pdfInput dom = Some [] →
       ∃ r, requests (Script.uploadPDF w dom) = [r]
            ∧ req_body r = BodyForm [("file", FormString "undefined")]).
Proof.
  rewrite script_run. split; [|split].
  - by intros ->.
  - intros files ->. repeat case_match; done.
  - intros ->. exists (legacy_request []). split; [|reflexivity].
    repeat case_match; done.
Qed.

Lemma legacy_upload_has_no_guard_witness :
  ∃ r, requests (Script.uploadPDF (Sample.answering Sample.report)
                   Scenario.empty_page) = [r]
       ∧ req_body r = BodyForm [("file", FormString "undefined")].
Proof.
  apply (legacy_upload_has_no_guard (Sample.answering Sample.report)
           Scenario.empty_page).
  reflexivity.
Defined.

(** X15: the legacy [uploadPDF] writes the page only on full success:
    when it rejects the page is as it was, and when it completes the
    text of [#output] is the [summary] property of the answer
    ([undefined] when the answer has none) and [#pdfInput] is
    untouched. *)
Theorem legacy_upload_effect (w : world) (dom : Script.Dom) :
  (∀ e, result (Script.uploadPDF w dom) = Rejected e →
        final (Script.uploadPDF w dom) = dom)
  ∧ (result (Script.uploadPDF w dom) = Fulfilled () →
     ∃ files data summary,
       Script.pdfInput dom = Some files
       ∧ parsed_body w (legacy_request files) = Fulfilled data
       ∧ get_prop data "summary" = Fulfilled summary
       ∧ final (Script.uploadPDF w dom)
         = {| Script.pdfInput := Some files;
              Script.output := Some summary |}).
Proof.
  rewrite script_run. split.
  - intros e. repeat case_match; done.
  - destruct (Script.pdfInput dom) as [files|]; [|done].
    destruct (parsed_body w (legacy_request files)) as [data|] eqn:Hdata;
      [|done].
    destruct (Script.output dom); [|done].
    destruct (get_prop data "summary") as [summary|] eqn:Hsummary; [|done].
    intros _. exists files, data, summary. by repeat split.
Qed.

Lemma legacy_upload_effect_witness :
  ∃ files data summary,
    Script.pdfInput Scenario.empty_page = Some files
    ∧ parsed_body (Sample.answering Sample.report) (legacy_request files)
      = Fulfilled data
    ∧ get_prop data "summary" = Fulfilled summary
    ∧ final (Script.uploadPDF (Sample.answering Sample.report)
               Scenario.empty_page)
      = {| Script.pdfInput := Some files; Script.output := Some summary |}.
Proof.
  apply (legacy_upload_effect (Sample.answering Sample.report)
           Scenario.empty_page).
  reflexivity.
Defined.

(* ===================================================================== *)
(** ** The listeners of the window *)
(* ===================================================================== *)

Lemma filter_ne_absent {A} `{EqDecision A} (x : A) (l : list A) :
  x ∉ l → filter (λ y, y ≠ x) l = l.
Proof.
  induction l as [|y l IH]; [done|].
  intros Hx. apply not_elem_of_cons in Hx as [Hne Hx].
  rewrite filter_cons_True by done. by rewrite IH.
Qed.

(** X18: the cleanup of the first effect undoes its subscription: for
    the two fresh callbacks of a mount, subscribing adds them after the
    listeners already there, and unsubscribing leaves the listeners of
    the window exactly as they were before the mount. *)
Theorem subscribe_cleanup_round_trip {L : Type} `{EqDecision L}
    (handleOnline handleOffline : L) (ls : list (string * L)) :
  ("online", handleOnline) ∉ ls →
  ("offline", handleOffline) ∉ ls →
  Window.subscribe handleOnline handleOffline ls
  = ls ++ [("online", handleOnline); ("offline", handleOffline)]
  ∧ Window.cleanup handleOnline handleOffline
      (Window.subscribe handleOnline handleOffline ls)
    = ls.
Proof.
  intros Hon Hoff.
  assert (Hsub : Window.subscribe handleOnline handleOffline ls
                 = ls ++ [("online", handleOnline);
                          ("offline", handleOffline)]).
  { unfold Window.subscribe, Window.addEventListener.
    rewrite (bool_decide_eq_false_2 _ Hon).
    rewrite bool_decide_eq_false_2.
    - by rewrite <- (assoc_L (++)).
    - intros Hin. apply elem_of_app in Hin as [Hin|Hin]; [done|].
      by apply list_elem_of_singleton in Hin. }
  split; [exact Hsub|].
  rewrite Hsub. unfold Window.cleanup, Window.removeEventListener.
  assert (Hinner :
    filter (λ entry, entry ≠ ("online", handleOnline))
      (ls ++ [("online", handleOnline); ("offline", handleOffline)])
    = ls ++ [("offline", handleOffline)]).
  { rewrite filter_app, (filter_ne_absent _ ls Hon).
    rewrite filter_cons_False by (intros Hne; by apply Hne).
    by rewrite filter_cons_True. }
  rewrite Hinner, filter_app, (filter_ne_absent _ ls Hoff).
  rewrite filter_cons_False by (intros Hne; by apply Hne).
  by rewrite filter_nil, app_nil_r.
Qed.

Lemma subscribe_cleanup_round_trip_witness :
  Window.cleanup 1%nat 2%nat
    (Window.subscribe 1%nat 2%nat [("resize", 0%nat)])
  = [("resize", 0%nat)].
Proof.
  apply (subscribe_cleanup_round_trip 1%nat 2%nat [("resize", 0%nat)]).
  - intros Hin. apply list_elem_of_singleton in Hin. discriminate.
  - intros Hin. apply list_elem_of_singleton in Hin. discriminate.
Defined.

(* ===================================================================== *)
(** ** Lists, forms and configuration *)
(* ===================================================================== *)

(** X19: no handler deletes an entry of a list, and each adds at most
    one: whenever the notes, the schedules or the summaries hold an
    array before a handler runs, they hold an array afterwards, of the
    same length or one longer. *)
Theorem lists_never_shrink (env : Env) (w : world) (st : AppState)
    (op : operation) (cell : AppState → json) (l : list json) :
  cell = notes ∨ cell = schedules ∨ cell = summaries →
  cell st = JArr l →
  ∃ l', cell (final (run env w st op)) = JArr l'
        ∧ (length l ≤ length l' ≤ length l + 1)%nat.
Proof.
  intros Hcell Hl.
  assert (Hsame : cell (final (run env w st op)) = cell st →
                  ∃ l', cell (final (run env w st op)) = JArr l'
                        ∧ (length l ≤ length l' ≤ length l + 1)%nat).
  { intros ->. exists l. split; [done|lia]. }
  assert (Hgrow : ∀ x, cell (final (run env w st op)) = JArr (l ++ [x]) →
                  ∃ l', cell (final (run env w st op)) = JArr l'
                        ∧ (length l ≤ length l' ≤ length l + 1)%nat).
  { intros x ->. exists (l ++ [x]). split; [done|].
    rewrite length_app; simpl. lia. }
  destruct (run_frame env w st op)
    as (Hnote & Hschedules & Hsummaries & _ & _).
  destruct Hcell as [-> | [-> | ->]].
  - destruct op as [| | |id|command];
      try (apply Hsame, Hnote; discriminate).
    rewrite createNote_run in *. rewrite Hl in *; simpl in *.
    repeat case_match; try (by apply Hsame); by eapply Hgrow.
  - destruct op as [| | |id|command];
      try (apply Hsame, Hschedules; discriminate).
    rewrite createSchedule_run in *. rewrite Hl in *; simpl in *.
    repeat case_match; try (by apply Hsame); by eapply Hgrow.
  - destruct op as [| | |id|command];
      try (apply Hsame, Hsummaries; [discriminate|intros ?; discriminate]).
    + rewrite uploadPDF_run in *. rewrite Hl in *; simpl in *.
      repeat case_match; try (by apply Hsame); by eapply Hgrow.
    + clear Hsame Hgrow. rewrite refreshSummary_run, Hl; simpl.
      destruct (parsed_body w (refresh_request env id)) as [refreshed|];
        [|exists l; simpl; split; [done|lia]].
      destruct (map_outcome (refresh_one id refreshed) l) as [l'|] eqn:Hmap;
        [|exists l; simpl; split; [done|lia]].
      exists l'. split; [done|].
      apply map_outcome_Forall2, Forall2_length in Hmap. lia.
Qed.

Lemma lists_never_shrink_witness :
  ∃ l', summaries
          (final (run Sample.env (Sample.answering Sample.report)
                    Sample.with_file UploadPDF)) = JArr l'
        ∧ (2 ≤ length l' ≤ 2 + 1)%nat.
Proof.
  apply (lists_never_shrink Sample.env (Sample.answering Sample.report)
           Sample.with_file UploadPDF summaries
           [Sample.report; Sample.minutes]).
  - right. right. reflexivity.
  - reflexivity.
Defined.

(** X20: [runCopilotCommand] stores [result.response] whatever the
    answer is: an answer that is not [null] always completes the
    handler and overwrites the Copilot response, with the [response]
    property of an object and with [undefined] when the object has none
    or the answer is not an object; the answer [null] throws and leaves
    the state as it was. *)
Theorem copilot_response_stored (env : Env) (w : world) (st : AppState)
    (command : string) (answered : json) :
  parsed_body w (command_request env command) = Fulfilled answered →
  (answered = JNull →
     run env w st (RunCopilotCommand command)
     = ([command_request env command], st, Rejected TypeError))
  ∧ (answered ≠ JNull →
     run env w st (RunCopilotCommand command)
     = ([command_request env command],
        with_CopilotResponse
          (match answered with
           | JObj m => m !! "response"
           | _ => None
           end) st,
        Fulfilled ())).
Proof.
  intros Hbody. rewrite runCopilotCommand_run, Hbody. split.
  - by intros ->.
  - intros Hnull. by destruct answered.
Qed.

Lemma copilot_response_stored_witness :
  run Sample.env (Sample.answering Sample.note) (initial true)
    (RunCopilotCommand "help")
  = ([command_request Sample.env "help"],
     with_CopilotResponse None (initial true), Fulfilled ()).
Proof.
  destruct (copilot_response_stored Sample.env
              (Sample.answering Sample.note) (initial true) "help"
              Sample.note eq_refl) as [_ Hstored].
  rewrite Hstored by discriminate. vm_compute. reflexivity.
Defined.

(** The guard of the section of the active tab holds. *)
Lemma visible_section st name :
  activeTab st = name → name ∈ Ui.section_guards →
  bool_decide (name ∈ Ui.sections st) = true.
Proof.
  intros Htab Hin. apply bool_decide_eq_true_2.
  unfold Ui.sections. by apply list_elem_of_filter.
Qed.

(** A handled click of a button that runs the handler [op]. *)
Lemma step_click env w st ev name c op :
  activeTab st = name → name ∈ Ui.section_guards →
  Ui.on_event env st ev
  = (if bool_decide (name ∈ Ui.sections st) then Some c else None) →
  c w st = run env w st op →
  Ui.step env w st ev
  = Some (requests (run env w st op), final (run env w st op)).
Proof.
  intros Htab Hin Hev Hc. unfold Ui.step.
  rewrite Hev, (visible_section st name Htab Hin). simpl. by rewrite Hc.
Qed.

(** A handled edit of a form field. *)
Lemma step_edit env w st ev name f :
  activeTab st = name → name ∈ Ui.section_guards →
  Ui.on_event env st ev
  = (if bool_decide (name ∈ Ui.sections st) then Some (modify f)
     else None) →
  Ui.step env w st ev = Some ([], f st).
Proof.
  intros Htab Hin Hev. unfold Ui.step.
  by rewrite Hev, (visible_section st name Htab Hin).
Qed.

(** X21: what is typed is what is sent: on the notes tab, typing a
    title and a content, both non-empty, and clicking [Add Note] posts
    exactly that title and content, and on the backend's JSON answer the
    answer is the new last note and the form is empty again. *)
Theorem add_note_flow (env : Env) (w1 w2 w : world) (st : AppState)
    (title content : string) (l : list json) (newNote : json) :
  activeTab st = "notes" →
  title ≠ "" → content ≠ "" →
  notes st = JArr l →
  parsed_body w
    (post_request env "/api/notes"
       (JObj {[ "title" := JStr title; "content" := JStr content ]}))
  = Fulfilled newNote →
  Ui.exec env st
    [ (w1, Ui.ChangeTitle title); (w2, Ui.ChangeContent content);
      (w, Ui.ClickAddNote) ]
  = Some (with_NoteContent ""
            (with_NoteTitle "" (with_Notes (JArr (l ++ [newNote])) st)))
  ∧ fst <$> Ui.step env w
              (with_NoteContent content (with_NoteTitle title st))
              Ui.ClickAddNote
    = Some [ post_request env "/api/notes"
               (JObj {[ "title" := JStr title;
                        "content" := JStr content ]}) ].
Proof.
  intros Htab Htitle Hcontent Hl Hbody.
  assert (Hnotes : "notes" ∈ Ui.section_guards)
    by (apply list_elem_of_In; simpl; tauto).
  assert (Hrun :
    run env w (with_NoteContent content (with_NoteTitle title st)) CreateNote
    = ([post_request env "/api/notes"
          (JObj {[ "title" := JStr title; "content" := JStr content ]})],
       with_NoteContent ""
         (with_NoteTitle "" (with_Notes (JArr (l ++ [newNote])) st)),
       Fulfilled ())).
  { rewrite createNote_run, createNote_guard_false by done.
    unfold note_request; simpl. by rewrite Hbody, Hl. }
  assert (Hclick :
    Ui.step env w (with_NoteContent content (with_NoteTitle title st))
      Ui.ClickAddNote
    = Some ([post_request env "/api/notes"
               (JObj {[ "title" := JStr title; "content" := JStr content ]})],
            with_NoteContent ""
              (with_NoteTitle ""
                 (with_Notes (JArr (l ++ [newNote])) st)))).
  { rewrite (step_click env w
               (with_NoteContent content (with_NoteTitle title st))
               Ui.ClickAddNote "notes"
               (createNote env
                  (with_NoteContent content (with_NoteTitle title st)))
               CreateNote); try done.
    by rewrite Hrun. }
  split; [|by rewrite Hclick].
  cbn [Ui.exec].
  rewrite (step_edit env w1 st (Ui.ChangeTitle title) "notes"
             (with_NoteTitle title)) by done.
  rewrite (step_edit env w2 (with_NoteTitle title st)
             (Ui.ChangeContent content) "notes"
             (with_NoteContent content)) by done.
  by rewrite Hclick.
Qed.

Lemma add_note_flow_witness :
  Ui.exec Sample.env (Ui.with_ActiveTab "notes" (initial true))
    [ (Scenario.unreachable, Ui.ChangeTitle "Meeting");
      (Scenario.unreachable, Ui.ChangeContent "Budget review");
      (Sample.answering Sample.note, Ui.ClickAddNote) ]
  = Some (with_NoteContent ""
            (with_NoteTitle ""
               (with_Notes (JArr ([] ++ [Sample.note]))
                  (Ui.with_ActiveTab "notes" (initial true))))).
Proof.
  apply (add_note_flow Sample.env Scenario.unreachable Scenario.unreachable
           (Sample.answering Sample.note)
           (Ui.with_ActiveTab "notes" (initial true))
           "Meeting" "Budget review" [] Sample.note);
    (reflexivity || discriminate).
Defined.



